(** * WebCryptoFunctionService: a facade over two crypto providers

    Shallow embedding of [src/services/webCryptoFunction.service.ts].

    The service owns no cryptography.  Every method bridges its arguments
    to one of two providers and hands the work over:
      - node-forge (the software provider), which works on byte strings
        and on mutable digest, MAC and cipher objects;
      - the platform's [SubtleCrypto] and [Crypto] objects (the native
        provider), which work on [ArrayBuffer]s and imported key handles.

    Both providers are taken as interfaces (records of operations).  A
    method of the service is a computation in a small effect monad that
    records every call made on a provider, with its arguments, and stops at
    the first call that throws. *)

From Stdlib Require Import List String NArith ZArith Lia Bool.
From Stdlib Require Import Init.Byte Strings.Byte.
From ExtLib Require Import Structures.Monad.
Import ListNotations.
Import MonadNotation.

Local Open Scope string_scope.
Local Open Scope list_scope.
Local Open Scope monad_scope.

(* ===================================================================== *)
(** ** Data *)
(* ===================================================================== *)

(** An [ArrayBuffer] (and a [Uint8Array] view of it): a sequence of bytes. *)
Definition ArrayBuffer := list byte.

(** A JavaScript string: a sequence of 16-bit code units.  A code unit is
    kept as an [N]; [String.fromCharCode] wraps its argument to 16 bits. *)
Definition CodeUnit := N.
Definition JsString := list CodeUnit.

(** A byte string is a JavaScript string used as a carrier of bytes. *)
Definition ByteString := JsString.

(** The TypeScript union [string | ArrayBuffer]; [typeof value === 'string']
    is the test on the constructor. *)
Inductive StringOrBuffer :=
| Str (s : JsString)
| Buf (b : ArrayBuffer).

(** Algorithm identifiers and the other string literals of the source are
    ASCII, and are kept as Rocq strings; [===] on them is [String.eqb]. *)
Definition AlgorithmId := string.

(** A thrown JavaScript error, by its message. *)
Definition JsError := string.

(** The result of a call that may throw. *)
Inductive Outcome (A : Type) :=
| Ok (a : A)
| Throw (e : JsError).
Arguments Ok {A} a.
Arguments Throw {A} e.

(** Algorithm descriptor objects given to [SubtleCrypto], by shape. *)
Inductive Algorithm :=
| AlgName (name : string)
    (* { name } *)
| AlgHash (name : string) (hash : string)
    (* { name, hash: { name } } *)
| AlgIv (name : string) (iv : ArrayBuffer)
    (* { name, iv } *)
| AlgPbkdf2 (name : string) (salt : ArrayBuffer) (iterations : Z) (hash : string).
    (* { name, salt, iterations, hash: { name } } *)

(** A [CryptoKey]: the attributes the platform exposes and the key material
    it keeps in its internal slot. *)
Record CryptoKey := mkCryptoKey {
  key_type : string;
  key_extractable : bool;
  key_algorithm : Algorithm;
  key_usages : list string;
  key_handle : ArrayBuffer;
}.

(* ===================================================================== *)
(** ** Utils (src/misc/utils.ts) *)
(* ===================================================================== *)

Module Utils.

(** The value of a byte as a code unit. *)
Definition charCode (b : byte) : CodeUnit := Byte.to_N b.

(** Storing a number into a [Uint8Array] cell keeps its low 8 bits. *)
Definition toUint8 (c : CodeUnit) : byte :=
  match Byte.of_N (c mod 256) with
  | Some b => b
  | None => x00
  end.

(** Modelled from the spec: [Utils.fromBufferToByteString], of
    src/misc/utils.ts, which is not among the sources.  "If input is a
    buffer, map each byte directly" to one code unit. *)
Definition fromBufferToByteString (buffer : ArrayBuffer) : ByteString :=
  map charCode buffer.

(** Modelled from the spec: [Utils.fromByteStringToArray], of
    src/misc/utils.ts, which is not among the sources.  "Inverse of the
    buffer to byte-string mapping": one byte per code unit, the value the
    code unit holds.  The spec is silent on code units above 255; the
    cell of a [Uint8Array] keeps the low 8 bits. *)
Definition fromByteStringToArray (str : ByteString) : ArrayBuffer :=
  map toUint8 str.

End Utils.

(* ===================================================================== *)
(** ** The two providers, as interfaces *)
(* ===================================================================== *)

(** node-forge, as far as the service reaches into it.  Digest, MAC and
    cipher objects are mutable in forge; here each method returns the
    object's next state.  A method that can throw returns an [Outcome].
    [util_encodeUtf8] is the encoder on well-formed texts; on a text with
    an unpaired surrogate forge throws a URIError, and what is proved of
    the encoder's result is stated for well-formed texts. *)
Module Forge.

Record Lib := {
  (* forge.util *)
  ByteBuffer : Type;
  util_encodeUtf8 : JsString -> ByteString;
  util_createBuffer : ByteString -> ByteBuffer;
  buffer_data : ByteBuffer -> ByteString;        (* buf.data *)
  buffer_getBytes : ByteBuffer -> ByteString;    (* buf.getBytes() *)
  (* forge.pbkdf2(p, s, c, dkLen, md) *)
  pbkdf2 : ByteString -> ByteString -> Z -> Z -> string -> Outcome ByteString;
  (* forge.md *)
  MessageDigest : Type;
  md_sha1_create : MessageDigest;
  md_sha256_create : MessageDigest;
  md_sha512_create : MessageDigest;
  md_update : MessageDigest -> ByteString -> string -> Outcome MessageDigest;
  md_digest : MessageDigest -> Outcome ByteBuffer;
  (* forge.hmac *)
  Hmac : Type;
  hmac_create : Hmac;
  hmac_start : Hmac -> string -> ByteString -> Outcome Hmac;
  hmac_update : Hmac -> ByteString -> Outcome Hmac;
  hmac_digest : Hmac -> Outcome ByteBuffer;
  (* forge.cipher *)
  BlockCipher : Type;
  cipher_createDecipher : string -> ByteString -> Outcome BlockCipher;
  cipher_start : BlockCipher -> ByteString -> Outcome BlockCipher;
  cipher_update : BlockCipher -> ByteBuffer -> Outcome BlockCipher;
  (* finish() reports success by its boolean result *)
  cipher_finish : BlockCipher -> Outcome (bool * BlockCipher);
  cipher_output : BlockCipher -> ByteBuffer;     (* decipher.output *)
}.

End Forge.

(** The platform: [window.crypto] and [window.crypto.subtle].  A promise
    of [SubtleCrypto] that rejects makes the [await] on it throw, so an
    awaited call is a call that may throw. *)
Module WebCrypto.

Record SubtleCrypto := {
  importKey : string -> ArrayBuffer -> Algorithm -> bool -> list string ->
              Outcome CryptoKey;
  deriveBits : Algorithm -> CryptoKey -> Z -> Outcome ArrayBuffer;
  digest : Algorithm -> ArrayBuffer -> Outcome ArrayBuffer;
  sign : Algorithm -> CryptoKey -> ArrayBuffer -> Outcome ArrayBuffer;
  encrypt : Algorithm -> CryptoKey -> ArrayBuffer -> Outcome ArrayBuffer;
  decrypt : Algorithm -> CryptoKey -> ArrayBuffer -> Outcome ArrayBuffer;
}.

(** [getRandomValues(arr)] overwrites the cells of [arr] in place; a typed
    array never changes length.  Given the byte length of the view it
    throws, or gives the new value of cell [i]. *)
Record Crypto := {
  subtle : SubtleCrypto;
  getRandomValues : nat -> Outcome (nat -> byte);
}.

Record Window := {
  crypto : Crypto;
}.

End WebCrypto.

Record PlatformUtilsService := {
  pus_isEdge : unit -> bool;       (* platformUtilsService.isEdge() *)
}.

(* ===================================================================== *)
(** ** Effects: the calls made on the providers *)
(* ===================================================================== *)

Inductive Backend := Software | Native.

(** One call on a provider, with the data it was given. *)
Inductive Call :=
| ForgeEncodeUtf8 (value : JsString)
| ForgeCreateBuffer (bytes : ByteString)
| ForgeBufferGetBytes
| ForgePbkdf2 (p s : ByteString) (c dkLen : Z) (md : string)
| ForgeMdCreate (constructor : string)
| ForgeMdUpdate (bytes : ByteString) (encoding : string)
| ForgeMdDigest
| ForgeHmacCreate
| ForgeHmacStart (md : string) (key : ByteString)
| ForgeHmacUpdate (bytes : ByteString)
| ForgeHmacDigest
| ForgeCreateDecipher (algorithm : string) (key : ByteString)
| ForgeCipherStart (iv : ByteString)
| ForgeCipherUpdate
| ForgeCipherFinish
| SubtleImportKey (format : string) (keyData : ArrayBuffer) (algorithm : Algorithm)
                  (extractable : bool) (keyUsages : list string)
| SubtleDeriveBits (algorithm : Algorithm) (baseKey : CryptoKey) (length : Z)
| SubtleDigest (algorithm : Algorithm) (data : ArrayBuffer)
| SubtleSign (algorithm : Algorithm) (key : CryptoKey) (data : ArrayBuffer)
| SubtleEncrypt (algorithm : Algorithm) (key : CryptoKey) (data : ArrayBuffer)
| SubtleDecrypt (algorithm : Algorithm) (key : CryptoKey) (data : ArrayBuffer)
| CryptoGetRandomValues (byteLength : nat)
| PlatformIsEdge.

(** The provider a call goes to; the platform query goes to neither. *)
Definition backend_of (c : Call) : option Backend :=
  match c with
  | ForgeEncodeUtf8 _ | ForgeCreateBuffer _ | ForgeBufferGetBytes
  | ForgePbkdf2 _ _ _ _ _
  | ForgeMdCreate _ | ForgeMdUpdate _ _ | ForgeMdDigest
  | ForgeHmacCreate | ForgeHmacStart _ _ | ForgeHmacUpdate _ | ForgeHmacDigest
  | ForgeCreateDecipher _ _ | ForgeCipherStart _ | ForgeCipherUpdate
  | ForgeCipherFinish => Some Software
  | SubtleImportKey _ _ _ _ _ | SubtleDeriveBits _ _ _ | SubtleDigest _ _
  | SubtleSign _ _ _ | SubtleEncrypt _ _ _ | SubtleDecrypt _ _ _
  | CryptoGetRandomValues _ => Some Native
  | PlatformIsEdge => None
  end.

Definition Backend_eqb (a b : Backend) : bool :=
  match a, b with
  | Software, Software | Native, Native => true
  | _, _ => false
  end.

Definition goes_to (b : Backend) (c : Call) : bool :=
  match backend_of c with
  | Some b' => Backend_eqb b b'
  | None => false
  end.

(** A run uses backend [b]: it calls a provider, and every call goes to [b]. *)
Definition uses (b : Backend) (calls : list Call) : Prop :=
  calls <> [] /\ forallb (goes_to b) calls = true.

(** A computation: the calls made so far and a value or a thrown error. *)
Definition Eff (A : Type) : Type := list Call * Outcome A.

Definition Eff_ret {A} (a : A) : Eff A := ([], Ok a).

Definition Eff_bind {A B} (m : Eff A) (k : A -> Eff B) : Eff B :=
  match m with
  | (calls, Ok a) => let (calls', r) := k a in (calls ++ calls', r)
  | (calls, Throw e) => (calls, Throw e)
  end.

#[global] Instance Monad_Eff : Monad Eff :=
  {| ret := @Eff_ret; bind := @Eff_bind |}.

(** A call on a provider: recorded, then answered by the provider. *)
Definition call {A} (c : Call) (answer : Outcome A) : Eff A := ([c], answer).

(** A call on a provider that cannot throw. *)
Definition call_total {A} (c : Call) (answer : A) : Eff A := ([c], Ok answer).

Definition calls_of {A} (m : Eff A) : list Call := fst m.
Definition outcome_of {A} (m : Eff A) : Outcome A := snd m.

(** The state of the promise a method returns. *)
Inductive Settled (A : Type) :=
| Resolved (v : A)
| Rejected (e : JsError).
Arguments Resolved {A} v.
Arguments Rejected {A} e.

(** An [async] method never throws: it returns a promise, resolved with
    the value of its body or rejected with the error the body threw. *)
Definition async {A} (body : Eff A) : Eff (Settled A) :=
  match body with
  | (calls, Ok v) => (calls, Ok (Resolved v))
  | (calls, Throw e) => (calls, Ok (Rejected e))
  end.

(** The promise a method call returned, if it returned one. *)
Definition promise_of {A} (m : Eff (Settled A)) : Outcome (Settled A) := outcome_of m.

(* ===================================================================== *)
(** ** The service (src/services/webCryptoFunction.service.ts) *)
(* ===================================================================== *)

(** The fields of a [WebCryptoFunctionService] object: the two constructor
    parameter properties and the three private fields. *)
Record WebCryptoFunctionService := {
  this_win : WebCrypto.Window;
  this_platformUtilsService : PlatformUtilsService;
  this_crypto : WebCrypto.Crypto;
  this_subtle : WebCrypto.SubtleCrypto;
  this_isEdge : bool;
}.

(** The largest length a typed array can have: 2^53 - 1, above which the
    constructor's ToIndex step refuses the argument. *)
Definition max_typed_array_length : Z := 9007199254740991.

(** [new Uint8Array(length)]: zero-filled; a negative length, or one above
    the largest length, is a [RangeError]. *)
Definition new_Uint8Array (length : Z) : Eff ArrayBuffer :=
  if ((length <? 0) || (max_typed_array_length <? length))%Z
  then ([], Throw "RangeError: Invalid typed array length")
  else ret (repeat x00 (Z.to_nat length)).

Section Service.

(** [import * as forge from 'node-forge'] *)
Variable forge : Forge.Lib.

(** [Utils.fromUtf8ToArray], of src/misc/utils.ts, which is not among the
    sources: the UTF-8 encoding of a text, taken as a parameter. *)
Variable fromUtf8ToArray : JsString -> ArrayBuffer.

(** *** Calls on the providers *)

Definition forge_util_encodeUtf8 (value : JsString) : Eff ByteString :=
  call_total (ForgeEncodeUtf8 value) (Forge.util_encodeUtf8 forge value).

Definition forge_util_createBuffer (bytes : ByteString) : Eff (Forge.ByteBuffer forge) :=
  call_total (ForgeCreateBuffer bytes) (Forge.util_createBuffer forge bytes).

Definition forge_buffer_getBytes (buf : Forge.ByteBuffer forge) : Eff ByteString :=
  call_total ForgeBufferGetBytes (Forge.buffer_getBytes forge buf).

Definition forge_pbkdf2 (p s : ByteString) (c dkLen : Z) (md : string) : Eff ByteString :=
  call (ForgePbkdf2 p s c dkLen md) (Forge.pbkdf2 forge p s c dkLen md).

Definition forge_md_sha1_create : Eff (Forge.MessageDigest forge) :=
  call_total (ForgeMdCreate "sha1") (Forge.md_sha1_create forge).

Definition forge_md_sha256_create : Eff (Forge.MessageDigest forge) :=
  call_total (ForgeMdCreate "sha256") (Forge.md_sha256_create forge).

Definition forge_md_sha512_create : Eff (Forge.MessageDigest forge) :=
  call_total (ForgeMdCreate "sha512") (Forge.md_sha512_create forge).

Definition forge_md_update (md : Forge.MessageDigest forge) (bytes : ByteString)
    (encoding : string) : Eff (Forge.MessageDigest forge) :=
  call (ForgeMdUpdate bytes encoding) (Forge.md_update forge md bytes encoding).

Definition forge_md_digest (md : Forge.MessageDigest forge) : Eff (Forge.ByteBuffer forge) :=
  call ForgeMdDigest (Forge.md_digest forge md).

Definition forge_hmac_create : Eff (Forge.Hmac forge) :=
  call_total ForgeHmacCreate (Forge.hmac_create forge).

Definition forge_hmac_start (hmac : Forge.Hmac forge) (md : string) (key : ByteString)
    : Eff (Forge.Hmac forge) :=
  call (ForgeHmacStart md key) (Forge.hmac_start forge hmac md key).

Definition forge_hmac_update (hmac : Forge.Hmac forge) (bytes : ByteString)
    : Eff (Forge.Hmac forge) :=
  call (ForgeHmacUpdate bytes) (Forge.hmac_update forge hmac bytes).

Definition forge_hmac_digest (hmac : Forge.Hmac forge) : Eff (Forge.ByteBuffer forge) :=
  call ForgeHmacDigest (Forge.hmac_digest forge hmac).

Definition forge_cipher_createDecipher (algorithm : string) (key : ByteString)
    : Eff (Forge.BlockCipher forge) :=
  call (ForgeCreateDecipher algorithm key) (Forge.cipher_createDecipher forge algorithm key).

Definition forge_cipher_start (decipher : Forge.BlockCipher forge) (iv : ByteString)
    : Eff (Forge.BlockCipher forge) :=
  call (ForgeCipherStart iv) (Forge.cipher_start forge decipher iv).

Definition forge_cipher_update (decipher : Forge.BlockCipher forge)
    (input : Forge.ByteBuffer forge) : Eff (Forge.BlockCipher forge) :=
  call ForgeCipherUpdate (Forge.cipher_update forge decipher input).

Definition forge_cipher_finish (decipher : Forge.BlockCipher forge)
    : Eff (bool * Forge.BlockCipher forge) :=
  call ForgeCipherFinish (Forge.cipher_finish forge decipher).

Definition subtle_importKey (s : WebCrypto.SubtleCrypto) (format : string)
    (keyData : ArrayBuffer) (algorithm : Algorithm) (extractable : bool)
    (keyUsages : list string) : Eff CryptoKey :=
  call (SubtleImportKey format keyData algorithm extractable keyUsages)
       (WebCrypto.importKey s format keyData algorithm extractable keyUsages).

Definition subtle_deriveBits (s : WebCrypto.SubtleCrypto) (algorithm : Algorithm)
    (baseKey : CryptoKey) (length : Z) : Eff ArrayBuffer :=
  call (SubtleDeriveBits algorithm baseKey length)
       (WebCrypto.deriveBits s algorithm baseKey length).

Definition subtle_digest (s : WebCrypto.SubtleCrypto) (algorithm : Algorithm)
    (data : ArrayBuffer) : Eff ArrayBuffer :=
  call (SubtleDigest algorithm data) (WebCrypto.digest s algorithm data).

Definition subtle_sign (s : WebCrypto.SubtleCrypto) (algorithm : Algorithm)
    (key : CryptoKey) (data : ArrayBuffer) : Eff ArrayBuffer :=
  call (SubtleSign algorithm key data) (WebCrypto.sign s algorithm key data).

Definition subtle_encrypt (s : WebCrypto.SubtleCrypto) (algorithm : Algorithm)
    (key : CryptoKey) (data : ArrayBuffer) : Eff ArrayBuffer :=
  call (SubtleEncrypt algorithm key data) (WebCrypto.encrypt s algorithm key data).

Definition subtle_decrypt (s : WebCrypto.SubtleCrypto) (algorithm : Algorithm)
    (key : CryptoKey) (data : ArrayBuffer) : Eff ArrayBuffer :=
  call (SubtleDecrypt algorithm key data) (WebCrypto.decrypt s algorithm key data).

(** [crypto.getRandomValues(arr)]: the cells of [arr] are overwritten. *)
Definition crypto_getRandomValues (c : WebCrypto.Crypto) (arr : ArrayBuffer)
    : Eff ArrayBuffer :=
  fill <- call (CryptoGetRandomValues (List.length arr))
               (WebCrypto.getRandomValues c (List.length arr)) ;;
  ret (map fill (seq 0 (List.length arr))).

Definition platformUtilsService_isEdge (p : PlatformUtilsService) : Eff bool :=
  call_total PlatformIsEdge (pus_isEdge p tt).

(** *** Private helpers *)

Definition toBuf (value : StringOrBuffer) : ArrayBuffer :=
  match value with
  | Str s => fromUtf8ToArray s
  | Buf b => b
  end.

Definition toByteString (value : StringOrBuffer) : Eff ByteString :=
  match value with
  | Str s => forge_util_encodeUtf8 s
  | Buf b => ret (Utils.fromBufferToByteString b)
  end.

Definition toWebCryptoAlgorithm (algorithm : AlgorithmId) : string :=
  if algorithm =? "sha1" then "SHA-1"
  else if algorithm =? "sha256" then "SHA-256"
  else "SHA-512".

(** *** Constructor and methods *)

Definition constructor (win : WebCrypto.Window)
    (platformUtilsService : PlatformUtilsService) : Eff WebCryptoFunctionService :=
  isEdge <- platformUtilsService_isEdge platformUtilsService ;;
  ret {| this_win := win;
         this_platformUtilsService := platformUtilsService;
         this_crypto := WebCrypto.crypto win;
         this_subtle := WebCrypto.subtle (WebCrypto.crypto win);
         this_isEdge := isEdge |}.

Definition pbkdf2 (this : WebCryptoFunctionService) (password salt : StringOrBuffer)
    (algorithm : AlgorithmId) (iterations : Z) : Eff (Settled ArrayBuffer) :=
  async (
    if this_isEdge this then
      let forgeLen := if algorithm =? "sha256" then 32%Z else 64%Z in
      passwordBytes <- toByteString password ;;
      saltBytes <- toByteString salt ;;
      derivedKeyBytes <- forge_pbkdf2 passwordBytes saltBytes iterations forgeLen algorithm ;;
      ret (Utils.fromByteStringToArray derivedKeyBytes)
    else
      let wcLen := if algorithm =? "sha256" then 256%Z else 512%Z in
      let passwordBuf := toBuf password in
      let saltBuf := toBuf salt in
      let pbkdf2Params :=
        AlgPbkdf2 "PBKDF2" saltBuf iterations (toWebCryptoAlgorithm algorithm) in
      impKey <- subtle_importKey (this_subtle this) "raw" passwordBuf (AlgName "PBKDF2")
                                 false ["deriveBits"] ;;
      subtle_deriveBits (this_subtle this) pbkdf2Params impKey wcLen).

Definition hash (this : WebCryptoFunctionService) (value : StringOrBuffer)
    (algorithm : AlgorithmId) : Eff (Settled ArrayBuffer) :=
  async (
    if this_isEdge this then
      md <- (if algorithm =? "sha1" then forge_md_sha1_create
             else if algorithm =? "sha256" then forge_md_sha256_create
             else forge_md_sha512_create) ;;
      valueBytes <- toByteString value ;;
      md <- forge_md_update md valueBytes "raw" ;;
      d <- forge_md_digest md ;;
      ret (Utils.fromByteStringToArray (Forge.buffer_data forge d))
    else
      let valueBuf := toBuf value in
      subtle_digest (this_subtle this) (AlgName (toWebCryptoAlgorithm algorithm)) valueBuf).

Definition hmac (this : WebCryptoFunctionService) (value key : ArrayBuffer)
    (algorithm : AlgorithmId) : Eff (Settled ArrayBuffer) :=
  async (
    if this_isEdge this then
      valueBytes <- toByteString (Buf value) ;;
      keyBytes <- toByteString (Buf key) ;;
      hmac <- forge_hmac_create ;;
      hmac <- forge_hmac_start hmac algorithm keyBytes ;;
      hmac <- forge_hmac_update hmac valueBytes ;;
      d <- forge_hmac_digest hmac ;;
      bytes <- forge_buffer_getBytes d ;;
      ret (Utils.fromByteStringToArray bytes)
    else
      let signingAlgorithm := AlgHash "HMAC" (toWebCryptoAlgorithm algorithm) in
      impKey <- subtle_importKey (this_subtle this) "raw" key signingAlgorithm
                                 false ["sign"] ;;
      subtle_sign (this_subtle this) signingAlgorithm impKey value).

Definition aesEncrypt (this : WebCryptoFunctionService) (data iv key : ArrayBuffer)
    : Eff (Settled ArrayBuffer) :=
  async (
    impKey <- subtle_importKey (this_subtle this) "raw" key (AlgName "AES-CBC")
                               false ["encrypt"] ;;
    subtle_encrypt (this_subtle this) (AlgIv "AES-CBC" iv) impKey data).

Definition aesDecryptSmall (this : WebCryptoFunctionService) (data iv key : ArrayBuffer)
    : Eff (Settled ArrayBuffer) :=
  async (
    dataBytes <- toByteString (Buf data) ;;
    ivBytes <- toByteString (Buf iv) ;;
    keyBytes <- toByteString (Buf key) ;;
    dataBuffer <- forge_util_createBuffer dataBytes ;;
    decipher <- forge_cipher_createDecipher "AES-CBC" keyBytes ;;
    decipher <- forge_cipher_start decipher ivBytes ;;
    decipher <- forge_cipher_update decipher dataBuffer ;;
    finished <- forge_cipher_finish decipher ;;   (* the boolean is dropped *)
    let decipher := snd finished in
    bytes <- forge_buffer_getBytes (Forge.cipher_output forge decipher) ;;
    ret (Utils.fromByteStringToArray bytes)).

Definition aesDecryptLarge (this : WebCryptoFunctionService) (data iv key : ArrayBuffer)
    : Eff (Settled ArrayBuffer) :=
  async (
    impKey <- subtle_importKey (this_subtle this) "raw" key (AlgName "AES-CBC")
                               false ["decrypt"] ;;
    subtle_decrypt (this_subtle this) (AlgIv "AES-CBC" iv) impKey data).

Definition rsaEncrypt (this : WebCryptoFunctionService) (data publicKey : ArrayBuffer)
    (algorithm : AlgorithmId) : Eff (Settled ArrayBuffer) :=
  async (
    let rsaParams := AlgHash "RSA-OAEP" (toWebCryptoAlgorithm algorithm) in
    impKey <- subtle_importKey (this_subtle this) "spki" publicKey rsaParams
                               false ["encrypt"] ;;
    subtle_encrypt (this_subtle this) rsaParams impKey data).

Definition rsaDecrypt (this : WebCryptoFunctionService) (data privateKey : ArrayBuffer)
    (algorithm : AlgorithmId) : Eff (Settled ArrayBuffer) :=
  async (
    let rsaParams := AlgHash "RSA-OAEP" (toWebCryptoAlgorithm algorithm) in
    impKey <- subtle_importKey (this_subtle this) "pkcs8" privateKey rsaParams
                               false ["decrypt"] ;;
    subtle_decrypt (this_subtle this) rsaParams impKey data).

(** Not an [async] method: an error thrown inside is thrown to the caller. *)
Definition randomBytes (this : WebCryptoFunctionService) (length : Z)
    : Eff (Settled ArrayBuffer) :=
  arr <- new_Uint8Array length ;;
  arr <- crypto_getRandomValues (this_crypto this) arr ;;
  ret (Resolved arr).

End Service.

(* ===================================================================== *)
(** ** What the providers are trusted to compute *)
(* ===================================================================== *)

(** The hash functions of FIPS 180-4 the service may ask for. *)
Inductive HashFunction := SHA1 | SHA256 | SHA512.

(** The service's identifier of a hash function (also forge's name of it). *)
Definition id_of (h : HashFunction) : AlgorithmId :=
  match h with
  | SHA1 => "sha1"
  | SHA256 => "sha256"
  | SHA512 => "sha512"
  end.

(** The name of a hash function in the Web Cryptography API. *)
Definition webcrypto_name (h : HashFunction) : string :=
  match h with
  | SHA1 => "SHA-1"
  | SHA256 => "SHA-256"
  | SHA512 => "SHA-512"
  end.

(** Output length in bytes. *)
Definition digest_size (h : HashFunction) : nat :=
  match h with
  | SHA1 => 20
  | SHA256 => 32
  | SHA512 => 64
  end.

(** The number of bytes [pbkdf2] asks a provider for: 32 for sha256 and 64
    otherwise (forgeLen; wcLen / 8). *)
Definition derived_key_size (h : HashFunction) : nat :=
  match h with
  | SHA256 => 32
  | _ => 64
  end.


(** A text without unpaired surrogates.  On any other text the UTF-8
    encoders of the browser throw a URIError, so a contract on an encoder
    speaks of well-formed texts only. *)
Definition is_high_surrogate (c : CodeUnit) : bool := (55296 <=? c)%N && (c <=? 56319)%N.
Definition is_low_surrogate (c : CodeUnit) : bool := (56320 <=? c)%N && (c <=? 57343)%N.

Fixpoint well_formed (s : JsString) : bool :=
  match s with
  | [] => true
  | c :: rest =>
      if is_high_surrogate c then
        match rest with
        | d :: rest' => is_low_surrogate d && well_formed rest'
        | [] => false
        end
      else negb (is_low_surrogate c) && well_formed rest
  end.

Definition well_formed_text (value : StringOrBuffer) : bool :=
  match value with
  | Str s => well_formed s
  | Buf _ => true
  end.

(** The primitives themselves, as mathematical functions on bytes. *)
Record Primitives := {
  HASH : HashFunction -> ArrayBuffer -> ArrayBuffer;
  HMAC : HashFunction -> ArrayBuffer -> ArrayBuffer -> ArrayBuffer;       (* key, message *)
  PBKDF2 : HashFunction -> ArrayBuffer -> ArrayBuffer -> Z -> nat -> ArrayBuffer;
                                               (* password, salt, iterations, length *)
  AES_CBC_encrypt : ArrayBuffer -> ArrayBuffer -> ArrayBuffer -> ArrayBuffer;
                                               (* key, iv, plaintext; PKCS#7 padded *)
  AES_CBC_decrypt : ArrayBuffer -> ArrayBuffer -> ArrayBuffer -> option ArrayBuffer;
                                               (* [None]: the padding check fails *)
  AES_CBC_blocks : ArrayBuffer -> ArrayBuffer -> ArrayBuffer -> ArrayBuffer;
                                               (* decryption before the padding is cut *)
}.

Definition valid_aes_key (key : ArrayBuffer) : bool :=
  let n := List.length key in (n =? 16)%nat || (n =? 24)%nat || (n =? 32)%nat.

Definition valid_iv (iv : ArrayBuffer) : bool := (List.length iv =? 16)%nat.

Record PrimitivesLaws (P : Primitives) : Prop := {
  HASH_length : forall h x, List.length (HASH P h x) = digest_size h;
  HMAC_length : forall h k m, List.length (HMAC P h k m) = digest_size h;
  PBKDF2_length : forall h pw salt c n, List.length (PBKDF2 P h pw salt c n) = n;
  AES_CBC_inverse : forall key iv p,
    valid_aes_key key = true -> valid_iv iv = true ->
    AES_CBC_decrypt P key iv (AES_CBC_encrypt P key iv p) = Some p;
}.

Section Conformance.

Variable P : Primitives.

Local Abbreviation bytes := Utils.fromByteStringToArray.
Local Abbreviation bstr := Utils.fromBufferToByteString.

Definition md_create_of (forge : Forge.Lib) (h : HashFunction) : Forge.MessageDigest forge :=
  match h with
  | SHA1 => Forge.md_sha1_create forge
  | SHA256 => Forge.md_sha256_create forge
  | SHA512 => Forge.md_sha512_create forge
  end.

(** forge computes the primitives, on the byte strings of buffers.  Each
    clause is limited to what forge is known to do: the encoder on
    well-formed texts, PBKDF2 for a positive iteration count and at most
    64 bytes, and AES-CBC decryption on ciphertexts whose padding is
    valid (on the others forge's own, laxer, check decides). *)
Record ForgeConforms (forge : Forge.Lib) (fromUtf8ToArray : JsString -> ArrayBuffer)
    : Prop := {
  forge_encodes_utf8 : forall s,
    well_formed s = true ->
    Forge.util_encodeUtf8 forge s = bstr (fromUtf8ToArray s);
  forge_createBuffer_getBytes : forall s,
    Forge.buffer_getBytes forge (Forge.util_createBuffer forge s) = s;
  forge_computes_hash : forall h (value : ArrayBuffer),
    exists md d,
      Forge.md_update forge (md_create_of forge h) (bstr value) "raw" = Ok md /\
      Forge.md_digest forge md = Ok d /\
      Forge.buffer_data forge d = bstr (HASH P h value);
  forge_computes_hmac : forall h (key value : ArrayBuffer),
    exists m1 m2 d,
      Forge.hmac_start forge (Forge.hmac_create forge) (id_of h) (bstr key) = Ok m1 /\
      Forge.hmac_update forge m1 (bstr value) = Ok m2 /\
      Forge.hmac_digest forge m2 = Ok d /\
      Forge.buffer_getBytes forge d = bstr (HMAC P h key value);
  forge_computes_pbkdf2 : forall h (password salt : ArrayBuffer) c dkLen,
    (0 < c)%Z -> (0 <= dkLen <= 64)%Z ->
    Forge.pbkdf2 forge (bstr password) (bstr salt) c dkLen (id_of h) =
      Ok (bstr (PBKDF2 P h password salt c (Z.to_nat dkLen)));
  forge_computes_aes_cbc : forall (key iv data p : ArrayBuffer),
    valid_aes_key key = true -> valid_iv iv = true ->
    AES_CBC_decrypt P key iv data = Some p ->
    exists d0 d1 d2 d3,
      Forge.cipher_createDecipher forge "AES-CBC" (bstr key) = Ok d0 /\
      Forge.cipher_start forge d0 (bstr iv) = Ok d1 /\
      Forge.cipher_update forge d1 (Forge.util_createBuffer forge (bstr data)) = Ok d2 /\
      Forge.cipher_finish forge d2 = Ok (true, d3) /\
      Forge.buffer_getBytes forge (Forge.cipher_output forge d3) = bstr p;
}.

(** The platform computes the primitives, on buffers.  Each clause is
    limited to what the Web Cryptography API promises: an HMAC key is not
    empty (the import of an empty one is a DataError), a PBKDF2 iteration
    count is an unsigned long other than 0, and the bits asked of it are a
    positive multiple of 8. *)
Record SubtleConforms (subtle : WebCrypto.SubtleCrypto) : Prop := {
  subtle_computes_hash : forall h data,
    WebCrypto.digest subtle (AlgName (webcrypto_name h)) data = Ok (HASH P h data);
  subtle_computes_hmac : forall h key,
    key <> [] ->
    exists k,
      WebCrypto.importKey subtle "raw" key (AlgHash "HMAC" (webcrypto_name h))
                          false ["sign"] = Ok k /\
      forall data,
        WebCrypto.sign subtle (AlgHash "HMAC" (webcrypto_name h)) k data =
          Ok (HMAC P h key data);
  subtle_computes_pbkdf2 : forall password,
    exists k,
      WebCrypto.importKey subtle "raw" password (AlgName "PBKDF2")
                          false ["deriveBits"] = Ok k /\
      forall h salt c bits,
        (0 < c < 4294967296)%Z -> (0 < bits <= 512)%Z -> (bits mod 8 = 0)%Z ->
        WebCrypto.deriveBits subtle (AlgPbkdf2 "PBKDF2" salt c (webcrypto_name h)) k bits =
          Ok (PBKDF2 P h password salt c (Z.to_nat (bits / 8)));
  subtle_computes_aes_encrypt : forall key,
    valid_aes_key key = true ->
    exists k,
      WebCrypto.importKey subtle "raw" key (AlgName "AES-CBC") false ["encrypt"] = Ok k /\
      forall iv data,
        valid_iv iv = true ->
        WebCrypto.encrypt subtle (AlgIv "AES-CBC" iv) k data =
          Ok (AES_CBC_encrypt P key iv data);
  subtle_computes_aes_decrypt : forall key,
    valid_aes_key key = true ->
    exists k,
      WebCrypto.importKey subtle "raw" key (AlgName "AES-CBC") false ["decrypt"] = Ok k /\
      forall iv data,
        valid_iv iv = true ->
        match AES_CBC_decrypt P key iv data with
        | Some p => WebCrypto.decrypt subtle (AlgIv "AES-CBC" iv) k data = Ok p
        | None => exists e, WebCrypto.decrypt subtle (AlgIv "AES-CBC" iv) k data = Throw e
        end;
}.

End Conformance.

(* ===================================================================== *)
(** ** Reference providers *)
(* ===================================================================== *)

(** Small executable providers, used to run the service on concrete
    inputs.  They follow the interfaces of forge and of the Web
    Cryptography API; the primitives underneath are stand-ins (a checksum
    for the hash functions, PKCS#7 padding around an identity block cipher
    for AES-CBC), chosen so that every law of [PrimitivesLaws] holds. *)
Module Model.

Definition bytes := Utils.fromByteStringToArray.
Definition bstr := Utils.fromBufferToByteString.

Definition checksum (x : ArrayBuffer) : byte :=
  Utils.toUint8 (fold_right (fun b acc => (Byte.to_N b + 31 * acc) mod 256) 7 x)%N.

Definition tag (h : HashFunction) : byte :=
  match h with
  | SHA1 => x01
  | SHA256 => x02
  | SHA512 => x03
  end.

Definition pkcs7_pad (p : ArrayBuffer) : ArrayBuffer :=
  let n := 16 - (List.length p mod 16) in
  p ++ repeat (Utils.toUint8 (N.of_nat n)) n.

Definition pkcs7_unpad (x : ArrayBuffer) : option ArrayBuffer :=
  let b := last x x00 in
  let n := N.to_nat (Byte.to_N b) in
  if (1 <=? n)%nat && (n <=? 16)%nat && (n <=? List.length x)%nat
     && (List.length x mod 16 =? 0)%nat
     && forallb (Byte.eqb b) (skipn (List.length x - n) x)
  then Some (firstn (List.length x - n) x)
  else None.

Definition primitives : Primitives := {|
  HASH h x := repeat (checksum (tag h :: x)) (digest_size h);
  HMAC h k m := repeat (checksum (tag h :: k ++ x00 :: m)) (digest_size h);
  PBKDF2 h pw salt c n :=
    repeat (checksum (tag h :: Utils.toUint8 (Z.to_N c) :: pw ++ x00 :: salt)) n;
  AES_CBC_encrypt key iv p := pkcs7_pad p;
  AES_CBC_decrypt key iv x := pkcs7_unpad x;
  AES_CBC_blocks key iv x := x;
|}.

Definition hash_of_id (a : string) : option HashFunction :=
  if a =? "sha1" then Some SHA1
  else if a =? "sha256" then Some SHA256
  else if a =? "sha512" then Some SHA512
  else None.

Definition hash_of_name (n : string) : option HashFunction :=
  if n =? "SHA-1" then Some SHA1
  else if n =? "SHA-256" then Some SHA256
  else if n =? "SHA-512" then Some SHA512
  else None.

Definition has_usage (u : string) (k : CryptoKey) : bool :=
  existsb (String.eqb u) (key_usages k).

Section Providers.

Variable P : Primitives.
Variable fromUtf8ToArray : JsString -> ArrayBuffer.

Record Decipher := {
  dec_key : ByteString;
  dec_iv : ByteString;
  dec_input : ByteString;
  dec_output : ByteString;
}.

(** [finish()] as forge has it: it fails when the input is not a whole
    number of blocks or when the last byte of the decrypted blocks is above
    64; otherwise it cuts as many bytes as that last byte says, without
    looking at them, and succeeds. *)
Definition decipher_finish (d : Decipher) : bool * Decipher :=
  let key := bytes (dec_key d) in
  let iv := bytes (dec_iv d) in
  let input := bytes (dec_input d) in
  let blocks := AES_CBC_blocks P key iv input in
  let count := N.to_nat (Byte.to_N (last blocks x00)) in
  if negb (List.length input mod 16 =? 0)%nat || (64 <? count)%nat then
    (false, {| dec_key := dec_key d; dec_iv := dec_iv d; dec_input := [];
               dec_output := bstr blocks |})
  else
    (true, {| dec_key := dec_key d; dec_iv := dec_iv d; dec_input := [];
              dec_output := bstr (firstn (List.length blocks - count) blocks) |}).

Definition forge : Forge.Lib := {|
  Forge.ByteBuffer := ByteString;
  Forge.util_encodeUtf8 s := bstr (fromUtf8ToArray s);
  Forge.util_createBuffer s := s;
  Forge.buffer_data b := b;
  Forge.buffer_getBytes b := b;
  Forge.pbkdf2 p s c dkLen md :=
    match hash_of_id md with
    | Some h => Ok (bstr (PBKDF2 P h (bytes p) (bytes s) c (Z.to_nat dkLen)))
    | None => Throw "Unknown hash algorithm"
    end;
  Forge.MessageDigest := HashFunction * ByteString;
  Forge.md_sha1_create := (SHA1, []);
  Forge.md_sha256_create := (SHA256, []);
  Forge.md_sha512_create := (SHA512, []);
  Forge.md_update md v _ := Ok (fst md, snd md ++ v);
  Forge.md_digest md := Ok (bstr (HASH P (fst md) (bytes (snd md))));
  Forge.Hmac := option (HashFunction * ByteString) * ByteString;
  Forge.hmac_create := (None, []);
  Forge.hmac_start _ md key :=
    match hash_of_id md with
    | Some h => Ok (Some (h, key), [])
    | None => Throw "Unknown hash algorithm"
    end;
  Forge.hmac_update m v :=
    match fst m with
    | Some _ => Ok (fst m, snd m ++ v)
    | None => Throw "HMAC not started"
    end;
  Forge.hmac_digest m :=
    match fst m with
    | Some (h, key) => Ok (bstr (HMAC P h (bytes key) (bytes (snd m))))
    | None => Throw "HMAC not started"
    end;
  Forge.BlockCipher := Decipher;
  Forge.cipher_createDecipher algorithm key :=
    if (algorithm =? "AES-CBC") && valid_aes_key (bytes key)
    then Ok {| dec_key := key; dec_iv := []; dec_input := []; dec_output := [] |}
    else Throw "Unsupported algorithm or key size";
  Forge.cipher_start d iv :=
    if valid_iv (bytes iv)
    then Ok {| dec_key := dec_key d; dec_iv := iv; dec_input := []; dec_output := [] |}
    else Throw "Invalid IV length";
  Forge.cipher_update d input :=
    Ok {| dec_key := dec_key d; dec_iv := dec_iv d;
          dec_input := dec_input d ++ input; dec_output := dec_output d |};
  Forge.cipher_finish d := Ok (decipher_finish d);
  Forge.cipher_output d := dec_output d;
|}.

(** [importKey]: a raw key for PBKDF2, HMAC (not empty) and AES-CBC (16, 24
    or 32 bytes); an 'spki' public key and a 'pkcs8' private key for
    RSA-OAEP. *)
Definition importKey (format : string) (keyData : ArrayBuffer) (algorithm : Algorithm)
    (extractable : bool) (keyUsages : list string) : Outcome CryptoKey :=
  let key (type : string) := mkCryptoKey type extractable algorithm keyUsages keyData in
  let raw := format =? "raw" in
  match algorithm with
  | AlgName n =>
      if negb raw then Throw "NotSupportedError"
      else if n =? "PBKDF2" then Ok (key "secret")
      else if n =? "AES-CBC" then
        if valid_aes_key keyData then Ok (key "secret") else Throw "DataError"
      else Throw "NotSupportedError"
  | AlgHash a n =>
      match hash_of_name n with
      | None => Throw "NotSupportedError"
      | Some _ =>
          if a =? "HMAC" then
            if negb raw then Throw "NotSupportedError"
            else match keyData with
                 | [] => Throw "DataError"
                 | _ :: _ => Ok (key "secret")
                 end
          else if a =? "RSA-OAEP" then
            if format =? "spki" then Ok (key "public")
            else if format =? "pkcs8" then Ok (key "private")
            else Throw "NotSupportedError"
          else Throw "NotSupportedError"
      end
  | _ => Throw "NotSupportedError"
  end.

(** The stand-in for RSA-OAEP: a ciphertext is the plaintext reversed. *)
Definition subtle : WebCrypto.SubtleCrypto := {|
  WebCrypto.importKey := importKey;
  WebCrypto.deriveBits algorithm k bits :=
    match algorithm with
    | AlgPbkdf2 "PBKDF2" salt c n =>
        match hash_of_name n with
        | Some h =>
            if negb ((0 <=? c) && (c <? 4294967296))%Z then Throw "TypeError"
            else if has_usage "deriveBits" k && (0 <? c)%Z
                    && (0 <? bits)%Z && (bits mod 8 =? 0)%Z
            then Ok (PBKDF2 P h (key_handle k) salt c (Z.to_nat (bits / 8)))
            else Throw "OperationError"
        | None => Throw "NotSupportedError"
        end
    | _ => Throw "NotSupportedError"
    end;
  WebCrypto.digest algorithm data :=
    match algorithm with
    | AlgName n =>
        match hash_of_name n with
        | Some h => Ok (HASH P h data)
        | None => Throw "NotSupportedError"
        end
    | _ => Throw "NotSupportedError"
    end;
  WebCrypto.sign algorithm k data :=
    match algorithm with
    | AlgHash "HMAC" n =>
        match hash_of_name n with
        | Some h =>
            if has_usage "sign" k then Ok (HMAC P h (key_handle k) data)
            else Throw "InvalidAccessError"
        | None => Throw "NotSupportedError"
        end
    | _ => Throw "NotSupportedError"
    end;
  WebCrypto.encrypt algorithm k data :=
    match algorithm with
    | AlgIv "AES-CBC" iv =>
        if has_usage "encrypt" k && valid_iv iv
        then Ok (AES_CBC_encrypt P (key_handle k) iv data)
        else Throw "OperationError"
    | AlgHash "RSA-OAEP" _ =>
        if has_usage "encrypt" k && (key_type k =? "public")
        then Ok (rev data)
        else Throw "InvalidAccessError"
    | _ => Throw "NotSupportedError"
    end;
  WebCrypto.decrypt algorithm k data :=
    match algorithm with
    | AlgIv "AES-CBC" iv =>
        if has_usage "decrypt" k && valid_iv iv
        then match AES_CBC_decrypt P (key_handle k) iv data with
             | Some p => Ok p
             | None => Throw "OperationError"
             end
        else Throw "OperationError"
    | AlgHash "RSA-OAEP" _ =>
        if has_usage "decrypt" k && (key_type k =? "private")
        then Ok (rev data)
        else Throw "InvalidAccessError"
    | _ => Throw "NotSupportedError"
    end;
|}.

(** [getRandomValues] refuses a view of more than 65536 bytes
    (QuotaExceededError in the Web Cryptography API). *)
Definition crypto : WebCrypto.Crypto := {|
  WebCrypto.subtle := subtle;
  WebCrypto.getRandomValues n :=
    if (N.of_nat n <=? 65536)%N
    then Ok (fun i => Utils.toUint8 (N.of_nat (i * 37 + 11)))
    else Throw "QuotaExceededError";
|}.

Definition window : WebCrypto.Window := {| WebCrypto.crypto := crypto |}.

Definition platform (edge : bool) : PlatformUtilsService :=
  {| pus_isEdge := fun _ => edge |}.

(** The service object [new WebCryptoFunctionService(window, platform)]. *)
Definition service (edge : bool) : WebCryptoFunctionService :=
  {| this_win := window;
     this_platformUtilsService := platform edge;
     this_crypto := crypto;
     this_subtle := subtle;
     this_isEdge := edge |}.

End Providers.

(** A stand-in for the UTF-8 encoder: exact on ASCII text. *)
Definition utf8 (s : JsString) : ArrayBuffer := map Utils.toUint8 s.

End Model.

(* ===================================================================== *)
(** ** Routing predicates *)
(* ===================================================================== *)

(** The calls of a run are routed by a flag: to forge exactly when the flag
    is set, to the platform exactly when it is not. *)
Definition routed_by_flag (flag : bool) (calls : list Call) : Prop :=
  (uses Software calls <-> flag = true) /\ (uses Native calls <-> flag = false).

(** The same object with another value of the capability flag. *)
Definition with_isEdge (flag : bool) (this : WebCryptoFunctionService)
    : WebCryptoFunctionService :=
  {| this_win := this_win this;
     this_platformUtilsService := this_platformUtilsService this;
     this_crypto := this_crypto this;
     this_subtle := this_subtle this;
     this_isEdge := flag |}.

(** The method call returns a promise that is resolved with [n] bytes. *)
Definition resolves_with_length (m : Eff (Settled ArrayBuffer)) (n : nat) : Prop :=
  exists buf, promise_of m = Ok (Resolved buf) /\ List.length buf = n.

(** The method call returns a promise that is resolved with [buf]. *)
Definition resolves_to (m : Eff (Settled ArrayBuffer)) (buf : ArrayBuffer) : Prop :=
  promise_of m = Ok (Resolved buf).

(** A block that ends in 0xff.  No PKCS#7 padding ends so: under the
    reference cipher, whose blocks decrypt to themselves, the padding check
    of this ciphertext fails. *)
Definition bad_padding_block : ArrayBuffer := repeat xff 16.

Definition zero_block : ArrayBuffer := repeat x00 16.

(* ===================================================================== *)
(** ** Key handles along a run *)
(* ===================================================================== *)

(** The key handle an operation of [SubtleCrypto] is given. *)
Definition key_of (c : Call) : option CryptoKey :=
  match c with
  | SubtleDeriveBits _ k _ | SubtleSign _ k _
  | SubtleEncrypt _ k _ | SubtleDecrypt _ k _ => Some k
  | _ => None
  end.

(** The key usage an operation of [SubtleCrypto] needs. *)
Definition purpose (c : Call) : option string :=
  match c with
  | SubtleDeriveBits _ _ _ => Some "deriveBits"
  | SubtleSign _ _ _ => Some "sign"
  | SubtleEncrypt _ _ _ => Some "encrypt"
  | SubtleDecrypt _ _ _ => Some "decrypt"
  | _ => None
  end.

(** The algorithm descriptor an operation of [SubtleCrypto] is given. *)
Definition algorithm_of (c : Call) : option Algorithm :=
  match c with
  | SubtleDeriveBits a _ _ | SubtleSign a _ _
  | SubtleEncrypt a _ _ | SubtleDecrypt a _ _ => Some a
  | _ => None
  end.

Definition alg_name (a : Algorithm) : string :=
  match a with
  | AlgName n | AlgHash n _ | AlgIv n _ | AlgPbkdf2 n _ _ _ => n
  end.

Definition alg_hash (a : Algorithm) : option string :=
  match a with
  | AlgHash _ h | AlgPbkdf2 _ _ _ h => Some h
  | AlgName _ | AlgIv _ _ => None
  end.

(** Every key handle is imported for the one operation that follows: an
    operation with a key comes right after the import that returned that
    key; the import is not extractable, has the operation's usage as its
    only usage, and names the operation's algorithm (and hash, when it
    names one).  An import that nothing follows is one the platform
    refused. *)
Fixpoint keyed_per_call (s : WebCrypto.SubtleCrypto) (calls : list Call) : Prop :=
  match calls with
  | [] => True
  | SubtleImportKey format keyData algorithm extractable keyUsages :: rest =>
      extractable = false /\
      match rest with
      | [] =>
          List.length keyUsages = 1 /\
          exists e,
            WebCrypto.importKey s format keyData algorithm extractable keyUsages = Throw e
      | op :: rest' =>
          (exists k,
             WebCrypto.importKey s format keyData algorithm extractable keyUsages = Ok k /\
             key_of op = Some k) /\
          (exists u, purpose op = Some u /\ keyUsages = [u]) /\
          (exists a, algorithm_of op = Some a /\
                     alg_name a = alg_name algorithm /\
                     (alg_hash algorithm = None \/ alg_hash a = alg_hash algorithm)) /\
          keyed_per_call s rest'
      end
  | c :: rest => key_of c = None /\ keyed_per_call s rest
  end.

(** The hash-function names a call hands to the platform. *)
Definition platform_hash_names (c : Call) : list string :=
  match c with
  | SubtleDigest a _ => [alg_name a]
  | SubtleImportKey _ _ a _ _
  | SubtleDeriveBits a _ _ | SubtleSign a _ _
  | SubtleEncrypt a _ _ | SubtleDecrypt a _ _ =>
      match alg_hash a with
      | Some n => [n]
      | None => []
      end
  | _ => []
  end.

(** The names of hash functions in the Web Cryptography API that the
    service knows. *)
Definition webcrypto_names : list string := ["SHA-1"; "SHA-256"; "SHA-512"].

Definition names_known (c : Call) : bool :=
  forallb (fun n => existsb (String.eqb n) webcrypto_names) (platform_hash_names c).

(** A platform that refuses every key import. *)
Module Refusing.

Definition subtle (e : JsError) : WebCrypto.SubtleCrypto := {|
  WebCrypto.importKey _ _ _ _ _ := Throw e;
  WebCrypto.deriveBits _ _ _ := Ok [];
  WebCrypto.digest _ _ := Ok [];
  WebCrypto.sign _ _ _ := Ok [];
  WebCrypto.encrypt _ _ _ := Ok [];
  WebCrypto.decrypt _ _ _ := Ok [];
|}.

Definition crypto (e : JsError) : WebCrypto.Crypto := {|
  WebCrypto.subtle := subtle e;
  WebCrypto.getRandomValues _ := Ok (fun _ => x00);
|}.

Definition service (e : JsError) : WebCryptoFunctionService :=
  {| this_win := {| WebCrypto.crypto := crypto e |};
     this_platformUtilsService := {| pus_isEdge := fun _ => false |};
     this_crypto := crypto e;
     this_subtle := subtle e;
     this_isEdge := false |}.

End Refusing.

(* ===================================================================== *)
(** ** DeviceResponse (src/models/response/deviceResponse.ts) *)
(* ===================================================================== *)

#[global] Instance Monad_Outcome : Monad Outcome :=
  {| ret := @Ok;
     bind := fun A B (m : Outcome A) (k : A -> Outcome B) =>
               match m with
               | Ok a => k a
               | Throw e => Throw e
               end |}.

Module DeviceResponse.

(** A value of type [any], as a server response parsed from JSON gives
    it: plain data, whose objects have data properties only (no accessor,
    no proxy).  A number is kept by the 64 bits of its double: the
    constructor only copies values. *)
#[warnings="-register-all"]
Inductive JsValue :=
| JsUndefined
| JsNull
| JsBoolean (b : bool)
| JsNumber (bits : N)
| JsText (s : JsString)
| JsObject (properties : list (string * JsValue)).

(** The own property [name] of an object, by its list of properties. *)
Fixpoint lookup (name : string) (properties : list (string * JsValue)) : option JsValue :=
  match properties with
  | [] => None
  | (k, v) :: rest => if k =? name then Some v else lookup name rest
  end.

(** [value.name], for the five names the constructor reads: a TypeError on
    [null] and [undefined]; [undefined] where an object has no such
    property, and on booleans, numbers and strings, whose prototypes have
    none of the five. *)
Definition get (value : JsValue) (name : string) : Outcome JsValue :=
  match value with
  | JsUndefined | JsNull => Throw "TypeError: Cannot read property of null or undefined"
  | JsObject properties =>
      Ok (match lookup name properties with
          | Some v => v
          | None => JsUndefined
          end)
  | JsBoolean _ | JsNumber _ | JsText _ => Ok JsUndefined
  end.

(** The fields of a [DeviceResponse]; the declared types are erased at run
    time. *)
Record t := {
  id : JsValue;
  name : JsValue;
  identifier : JsValue;
  type : JsValue;
  creationDate : JsValue;
}.

Definition constructor (response : JsValue) : Outcome t :=
  i <- get response "Id" ;;
  n <- get response "Name" ;;
  d <- get response "Identifier" ;;
  y <- get response "Type" ;;
  c <- get response "CreationDate" ;;
  ret {| id := i; name := n; identifier := d; type := y; creationDate := c |}.

(** The property names the constructor reads. *)
Definition names_read : list string :=
  ["Id"; "Name"; "Identifier"; "Type"; "CreationDate"].

Definition is_read (property : string * JsValue) : bool :=
  existsb (String.eqb (fst property)) names_read.

(** A device none of whose fields is defined. *)
Definition all_undefined : t :=
  {| id := JsUndefined; name := JsUndefined; identifier := JsUndefined;
     type := JsUndefined; creationDate := JsUndefined |}.

End DeviceResponse.

(* ===================================================================== *)
(** ** BaseMenu (the Electron menu base class) *)
(* ===================================================================== *)

Module BaseMenu.

(** The two [click] closures of the class. *)
Inductive ClickHandler := LogOutClick | AboutClick.

(** A [MenuItemConstructorOptions] literal: the properties the class
    sets; [None] is a property left out. *)
#[warnings="-register-all"]
Inductive MenuItem := mkItem {
  label : option string;
  id : option string;
  role : option string;
  type : option string;
  accelerator : option string;
  enabled : option bool;
  submenu : option (list MenuItem);
  click : option ClickHandler;
}.

Definition Template := list MenuItem.

(** [{ label, role }] *)
Definition item (l r : string) : MenuItem :=
  mkItem (Some l) None (Some r) None None None None None.

(** [{ label, role, accelerator }] *)
Definition item_accelerator (l r a : string) : MenuItem :=
  mkItem (Some l) None (Some r) None (Some a) None None None.

(** [{ label, role, enabled }] *)
Definition item_enabled (l r : string) (e : bool) : MenuItem :=
  mkItem (Some l) None (Some r) None None (Some e) None None.

(** [{ label, role, submenu }] *)
Definition item_submenu (l r : string) (s : Template) : MenuItem :=
  mkItem (Some l) None (Some r) None None None (Some s) None.

(** [{ type: 'separator' }] *)
Definition separator : MenuItem :=
  mkItem None None None (Some "separator") None None None None.

(** The options object of [dialog.showMessageBox]. *)
Record MessageBoxOptions := {
  mb_title : string;
  mb_message : string;
  mb_detail : string;
  mb_type : option string;
  mb_buttons : list string;
  mb_cancelId : option Z;
  mb_defaultId : option Z;
  mb_noLink : bool;
}.

(** What the class reads from Electron, Node and its collaborators.
    [showMessageBox] blocks and returns the index of the button chosen. *)
Record Environment := {
  t : string -> string;                    (* i18nService.t(id) *)
  t1 : string -> string -> string;         (* i18nService.t(id, p1) *)
  appName : string;
  app_getVersion : string;
  versions_electron : string;
  versions_chrome : string;
  versions_node : string;
  process_arch : string;
  process_platform : string;
  isMacAppStore : bool;
  showMessageBox : MessageBoxOptions -> Z;
}.

(** What the class does to the outside. *)
Inductive Action :=
| DialogShowMessageBox (options : MessageBoxOptions)
| ClipboardWriteText (text : string)
| OnLogOut
| MenuBuildFromTemplate (template : Template)
| WebContentsOn (event : string)
| MenuPopup (menu : Template).

(** The fields of a [BaseMenu] object; [None] is [undefined].
    [windowMain_win] is [this.windowMain.win]. *)
Record Fields := {
  logOutMenuItemOptions : option MenuItem;
  aboutMenuItemOptions : option MenuItem;
  editMenuItemOptions : option MenuItem;
  viewSubMenuItemOptions : option Template;
  windowMenuItemOptions : option MenuItem;
  macAppMenuItemOptions : option Template;
  macWindowSubmenuOptions : option Template;
  windowMain_win : option N;
}.

(** The object right after [new]: no menu property is set. *)
Definition fresh (win : option N) : Fields :=
  {| logOutMenuItemOptions := None; aboutMenuItemOptions := None;
     editMenuItemOptions := None; viewSubMenuItemOptions := None;
     windowMenuItemOptions := None; macAppMenuItemOptions := None;
     macWindowSubmenuOptions := None; windowMain_win := win |}.

Definition newline : string := String (Ascii.ascii_of_nat 10) "".

Section WithEnvironment.

Variable env : Environment.

(** *** initProperties *)

Definition logOut_options : MessageBoxOptions :=
  {| mb_title := t env "logOut";
     mb_message := t env "logOut";
     mb_detail := t env "logOutConfirmation";
     mb_type := None;
     mb_buttons := [t env "logOut"; t env "cancel"];
     mb_cancelId := Some 1%Z;
     mb_defaultId := Some 0%Z;
     mb_noLink := true |}.

(** The [click] of the log-out item. *)
Definition logOut_click : list Action :=
  let result := showMessageBox env logOut_options in
  DialogShowMessageBox logOut_options ::
  (if (result =? 0)%Z then [OnLogOut] else []).

Definition aboutInformation : string :=
  t1 env "version" (app_getVersion env) ++
  newline ++ "Shell " ++ versions_electron env ++
  newline ++ "Renderer " ++ versions_chrome env ++
  newline ++ "Node " ++ versions_node env ++
  newline ++ "Architecture " ++ process_arch env.

Definition about_options : MessageBoxOptions :=
  {| mb_title := appName env;
     mb_message := appName env;
     mb_detail := aboutInformation;
     mb_type := Some "info";
     mb_buttons := [t env "ok"; t env "copy"];
     mb_cancelId := None;
     mb_defaultId := None;
     mb_noLink := true |}.

(** The [click] of the about item. *)
Definition about_click : list Action :=
  let result := showMessageBox env about_options in
  DialogShowMessageBox about_options ::
  (if (result =? 1)%Z then [ClipboardWriteText aboutInformation] else []).

Definition run_click (h : ClickHandler) : list Action :=
  match h with
  | LogOutClick => logOut_click
  | AboutClick => about_click
  end.

Definition initProperties (this : Fields) : Fields :=
  let darwin := process_platform env =? "darwin" in
  {| logOutMenuItemOptions :=
       Some (mkItem (Some (t env "logOut")) (Some "logOut") None None None None None
                    (Some LogOutClick));
     aboutMenuItemOptions :=
       Some (mkItem (Some (t env "aboutBitwarden")) None None None None None None
                    (Some AboutClick));
     editMenuItemOptions :=
       Some (mkItem (Some (t env "edit")) None None None None None
               (Some [item (t env "undo") "undo";
                      item (t env "redo") "redo";
                      separator;
                      item (t env "cut") "cut";
                      item (t env "copy") "copy";
                      item (t env "paste") "paste";
                      separator;
                      item (t env "selectAll") "selectall"])
               None);
     viewSubMenuItemOptions :=
       Some [item_accelerator (t env "zoomIn") "zoomin" "CmdOrCtrl+=";
             item_accelerator (t env "zoomOut") "zoomout" "CmdOrCtrl+-";
             item_accelerator (t env "resetZoom") "resetzoom" "CmdOrCtrl+0";
             separator;
             item (t env "toggleFullScreen") "togglefullscreen";
             separator;
             item (t env "reload") "forcereload";
             item_accelerator (t env "toggleDevTools") "toggledevtools" "F12"];
     windowMenuItemOptions :=
       Some (item_submenu (t env "window") "window"
               [item (t env "minimize") "minimize";
                item (t env "close") "close"]);
     macAppMenuItemOptions :=
       if darwin then
         Some [item_submenu (t env "services") "services" [];
               separator;
               item (t env "hideBitwarden") "hide";
               item (t env "hideOthers") "hideothers";
               item (t env "showAll") "unhide";
               separator;
               item (t env "quitBitwarden") "quit"]
       else macAppMenuItemOptions this;
     macWindowSubmenuOptions :=
       if darwin then
         Some [item (t env "close") (if isMacAppStore env then "quit" else "close");
               item (t env "minimize") "minimize";
               item (t env "zoom") "zoom";
               separator;
               item (t env "bringAllToFront") "front"]
       else macWindowSubmenuOptions this;
     windowMain_win := windowMain_win this |}.

(** *** initContextMenu *)

Definition selectionMenu : Template :=
  [item (t env "copy") "copy";
   separator;
   item (t env "selectAll") "selectall"].

Definition inputMenu : Template :=
  [item (t env "undo") "undo";
   item (t env "redo") "redo";
   separator;
   item_enabled (t env "cut") "cut" false;
   item_enabled (t env "copy") "copy" false;
   item (t env "paste") "paste";
   separator;
   item (t env "selectAll") "selectall"].

Definition inputSelectionMenu : Template :=
  [item (t env "cut") "cut";
   item (t env "copy") "copy";
   item (t env "paste") "paste";
   separator;
   item (t env "selectAll") "selectall"].

(** The white space and line terminators that [String.prototype.trim]
    strips, as a test on code units: a parameter. *)
Variable isWhiteSpace : CodeUnit -> bool.

Fixpoint trimStart (s : JsString) : JsString :=
  match s with
  | [] => []
  | c :: rest => if isWhiteSpace c then trimStart rest else s
  end.

(** [s.trim()] *)
Definition trim (s : JsString) : JsString :=
  rev (trimStart (rev (trimStart s))).

(** The part of the event's [props] the listener reads. *)
Record ContextMenuParams := {
  isEditable : bool;
  selectionText : JsString;
}.

(** [props.selectionText && props.selectionText.trim() !== ''], as the
    conditions that test it see it: the empty string is falsy. *)
Definition selected (props : ContextMenuParams) : bool :=
  match selectionText props with
  | [] => false
  | _ :: _ =>
      match trim (selectionText props) with
      | [] => false
      | _ :: _ => true
      end
  end.

(** The listener of 'context-menu'. *)
Definition on_context_menu (props : ContextMenuParams) : list Action :=
  if isEditable props && selected props then [MenuPopup inputSelectionMenu]
  else if isEditable props then [MenuPopup inputMenu]
  else if selected props then [MenuPopup selectionMenu]
  else [].

(** [initContextMenu]: the actions, and the listener it registered. *)
Definition initContextMenu (this : Fields)
    : list Action * option (ContextMenuParams -> list Action) :=
  match windowMain_win this with
  | None => ([], None)
  | Some _ =>
      ([MenuBuildFromTemplate selectionMenu;
        MenuBuildFromTemplate inputMenu;
        MenuBuildFromTemplate inputSelectionMenu;
        WebContentsOn "context-menu"],
       Some on_context_menu)
  end.

End WithEnvironment.

(** A menu offers a role: it has an item of that role that is not
    disabled. *)
Definition offers (menu : Template) (r : string) : bool :=
  existsb (fun i => match role i, enabled i with
                    | Some r', Some false => false
                    | Some r', _ => r' =? r
                    | None, _ => false
                    end) menu.

(** White space and line terminators of ECMAScript, as code units. *)
Definition es_whitespace (c : CodeUnit) : bool :=
  existsb (N.eqb c)
    [9; 10; 11; 12; 13; 32; 160; 5760; 8192; 8193; 8194; 8195; 8196; 8197; 8198;
     8199; 8200; 8201; 8202; 8232; 8233; 8239; 8287; 12288; 65279]%N.

(** An environment to run the class in. *)
Definition sample (platform : string) (answer : Z) : Environment :=
  {| t := fun id => id;
     t1 := fun id p1 => (id ++ " " ++ p1)%string;
     appName := "Bitwarden";
     app_getVersion := "1.0.0";
     versions_electron := "2.0.0";
     versions_chrome := "61.0";
     versions_node := "8.9.3";
     process_arch := "x64";
     process_platform := platform;
     isMacAppStore := false;
     showMessageBox := fun _ => answer |}.

End BaseMenu.

(* ===================================================================== *)
(** ** Proof support *)
(* ===================================================================== *)

Ltac simpl_eff :=
  cbn [bind ret Monad_Eff Eff_bind Eff_ret fst snd app
       this_isEdge this_subtle this_crypto with_isEdge].

(** Unfold the calls on the providers. *)
Ltac unfold_calls :=
  unfold forge_util_encodeUtf8, forge_util_createBuffer, forge_buffer_getBytes,
         forge_pbkdf2, forge_md_sha1_create, forge_md_sha256_create,
         forge_md_sha512_create, forge_md_update, forge_md_digest,
         forge_hmac_create, forge_hmac_start, forge_hmac_update, forge_hmac_digest,
         forge_cipher_createDecipher, forge_cipher_start, forge_cipher_update,
         forge_cipher_finish,
         subtle_importKey, subtle_deriveBits, subtle_digest, subtle_sign,
         subtle_encrypt, subtle_decrypt, crypto_getRandomValues,
         platformUtilsService_isEdge,
         async, call, call_total, calls_of, outcome_of, promise_of;
  simpl_eff.

(** Unfold a method down to the calls on the providers. *)
Ltac unfold_service :=
  unfold pbkdf2, hash, hmac, aesEncrypt, aesDecryptSmall, aesDecryptLarge,
         rsaEncrypt, rsaDecrypt, randomBytes, constructor,
         toByteString, toBuf, new_Uint8Array;
  unfold_calls.

(** Split on the answer of the next provider call the goal is stuck on. *)
Ltac case_answer :=
  match goal with
  | |- context [match ?x with Ok _ => _ | Throw _ => _ end] =>
      lazymatch x with
      | context [match _ with _ => _ end] => fail
      | _ => destruct x eqn:?
      end
  | |- context [if ?b then _ else _] =>
      lazymatch b with
      | context [if _ then _ else _] => fail
      | _ => destruct b eqn:?
      end
  end;
  simpl_eff.

Ltac run_service := unfold_service; repeat case_answer.

Lemma uses_cons (b : Backend) (c : Call) (calls : list Call) :
  goes_to b c = true -> forallb (goes_to b) calls = true -> uses b (c :: calls).
Proof.
  intros Hc Hrest; split; [discriminate|]. cbn. now rewrite Hc, Hrest.
Qed.

Lemma not_uses_cons (b : Backend) (c : Call) (calls : list Call) :
  goes_to b c = false -> ~ uses b (c :: calls).
Proof.
  intros Hc [_ H]. cbn in H. rewrite Hc in H. discriminate.
Qed.

(** A run whose first call goes to forge, and all others too. *)
Lemma routed_software (c : Call) (calls : list Call) :
  goes_to Software c = true -> forallb (goes_to Software) calls = true ->
  routed_by_flag true (c :: calls).
Proof.
  intros Hc Hrest; split; split; intros H; try reflexivity; try discriminate.
  - now apply uses_cons.
  - exfalso; revert H. apply not_uses_cons.
    unfold goes_to in *. destruct (backend_of c) as [[]|]; easy.
Qed.

Lemma routed_native (c : Call) (calls : list Call) :
  goes_to Native c = true -> forallb (goes_to Native) calls = true ->
  routed_by_flag false (c :: calls).
Proof.
  intros Hc Hrest; split; split; intros H; try reflexivity; try discriminate.
  - exfalso; revert H. apply not_uses_cons.
    unfold goes_to in *. destruct (backend_of c) as [[]|]; easy.
  - now apply uses_cons.
Qed.

Ltac routed := first [apply routed_software | apply routed_native]; reflexivity.

(* ===================================================================== *)
(** ** The byte bridge *)
(* ===================================================================== *)

Lemma toUint8_charCode (b : byte) : Utils.toUint8 (Utils.charCode b) = b.
Proof.
  unfold Utils.toUint8, Utils.charCode.
  rewrite N.mod_small by (pose proof (Byte.to_N_bounded b); lia).
  now rewrite Byte.of_to_N.
Qed.

Lemma fromByteString_fromBuffer (b : ArrayBuffer) :
  Utils.fromByteStringToArray (Utils.fromBufferToByteString b) = b.
Proof.
  unfold Utils.fromByteStringToArray, Utils.fromBufferToByteString.
  induction b as [|x b IH]; cbn; [reflexivity|].
  now rewrite toUint8_charCode, IH.
Qed.

Lemma fromBufferToByteString_length (b : ArrayBuffer) :
  List.length (Utils.fromBufferToByteString b) = List.length b.
Proof. apply length_map. Qed.

(** C5.  For every buffer [b], whatever bytes it holds, [toByteString]
    makes no call to forge's UTF-8 encoder: it maps each byte of [b] to the
    code unit of the same value, one code unit per byte, and
    [fromByteStringToArray] maps the result back to [b]. *)
Theorem toByteString_roundtrip :
  forall (forge : Forge.Lib) (b : ArrayBuffer),
    exists s : ByteString,
      toByteString forge (Buf b) = ([], Ok s) /\
      s = map Utils.charCode b /\
      List.length s = List.length b /\
      Utils.fromByteStringToArray s = b.
Proof.
  intros forge b. exists (Utils.fromBufferToByteString b).
  repeat split.
  - apply fromBufferToByteString_length.
  - apply fromByteString_fromBuffer.
Qed.

(* ===================================================================== *)
(** ** Runs on the reference providers *)
(* ===================================================================== *)

Example hash_on_edge_calls_forge :
  calls_of (hash (Model.forge Model.primitives Model.utf8) Model.utf8
                 (Model.service Model.primitives true) (Buf [x61; x62]) "sha256") =
    [ForgeMdCreate "sha256"; ForgeMdUpdate [97%N; 98%N] "raw"; ForgeMdDigest].
Proof. reflexivity. Qed.

Example hash_elsewhere_calls_subtle :
  calls_of (hash (Model.forge Model.primitives Model.utf8) Model.utf8
                 (Model.service Model.primitives false) (Buf [x61; x62]) "sha256") =
    [SubtleDigest (AlgName "SHA-256") [x61; x62]].
Proof. reflexivity. Qed.

Example pbkdf2_on_edge_calls_forge :
  calls_of (pbkdf2 (Model.forge Model.primitives Model.utf8) Model.utf8
                   (Model.service Model.primitives true)
                   (Str [112%N]) (Buf [x73]) "sha256" 5000) =
    [ForgeEncodeUtf8 [112%N]; ForgePbkdf2 [112%N] [115%N] 5000 32 "sha256"].
Proof. reflexivity. Qed.

Example pbkdf2_elsewhere_calls_subtle :
  calls_of (pbkdf2 (Model.forge Model.primitives Model.utf8) Model.utf8
                   (Model.service Model.primitives false)
                   (Str [112%N]) (Buf [x73]) "sha512" 5000) =
    [SubtleImportKey "raw" [x70] (AlgName "PBKDF2") false ["deriveBits"];
     SubtleDeriveBits (AlgPbkdf2 "PBKDF2" [x73] 5000 "SHA-512")
                      (mkCryptoKey "secret" false (AlgName "PBKDF2") ["deriveBits"] [x70])
                      512].
Proof. reflexivity. Qed.

Example aes_roundtrip_on_reference_providers :
  let this := Model.service Model.primitives false in
  let forge := Model.forge Model.primitives Model.utf8 in
  promise_of (aesEncrypt this [x68; x69] zero_block zero_block) =
    Ok (Resolved ([x68; x69] ++ repeat x0e 14)) /\
  promise_of (aesDecryptSmall forge this ([x68; x69] ++ repeat x0e 14)
                              zero_block zero_block) =
    Ok (Resolved [x68; x69]).
Proof. split; reflexivity. Qed.

(* ===================================================================== *)
(** ** Which provider serves which method *)
(* ===================================================================== *)

(** C2.  The constructor asks the platform once whether it runs on Edge
    and keeps the answer.  On the object it builds, and for every input,
    [pbkdf2], [hash] and [hmac] call only forge exactly when that answer was
    "Edge", and call only the platform exactly when it was not. *)
Theorem flag_routes_pbkdf2_hash_hmac :
  forall (forge : Forge.Lib) (fromUtf8ToArray : JsString -> ArrayBuffer)
         (win : WebCrypto.Window) (platformUtilsService : PlatformUtilsService),
    exists this : WebCryptoFunctionService,
      constructor win platformUtilsService = ([PlatformIsEdge], Ok this) /\
      this_isEdge this = pus_isEdge platformUtilsService tt /\
      forall (password salt value : StringOrBuffer) (data key : ArrayBuffer)
             (algorithm : AlgorithmId) (iterations : Z),
        routed_by_flag (pus_isEdge platformUtilsService tt)
          (calls_of (pbkdf2 forge fromUtf8ToArray this password salt algorithm iterations)) /\
        routed_by_flag (pus_isEdge platformUtilsService tt)
          (calls_of (hash forge fromUtf8ToArray this value algorithm)) /\
        routed_by_flag (pus_isEdge platformUtilsService tt)
          (calls_of (hmac forge this data key algorithm)).
Proof.
  intros forge utf8 win pus. eexists. split; [reflexivity|]. split; [reflexivity|].
  intros password salt value data key algorithm iterations.
  cbn [this_isEdge this_subtle].
  destruct (pus_isEdge pus tt); (split; [|split]).
  all: destruct password, salt, value; run_service; routed.
Qed.

(** C3.  Whatever the capability flag of the object, and for every input,
    [aesDecryptSmall] calls only forge, and [aesEncrypt], [aesDecryptLarge],
    [rsaEncrypt] and [rsaDecrypt] call only the platform; changing the flag
    changes neither the calls nor the result of any of the five. *)
Theorem fixed_routes_aes_rsa :
  forall (forge : Forge.Lib) (this : WebCryptoFunctionService) (flag : bool)
         (data iv key : ArrayBuffer) (algorithm : AlgorithmId),
    let flagged := with_isEdge flag this in
    (uses Software (calls_of (aesDecryptSmall forge flagged data iv key)) /\
     uses Native (calls_of (aesEncrypt flagged data iv key)) /\
     uses Native (calls_of (aesDecryptLarge flagged data iv key)) /\
     uses Native (calls_of (rsaEncrypt flagged data key algorithm)) /\
     uses Native (calls_of (rsaDecrypt flagged data key algorithm)))
    /\
    (aesDecryptSmall forge flagged data iv key = aesDecryptSmall forge this data iv key /\
     aesEncrypt flagged data iv key = aesEncrypt this data iv key /\
     aesDecryptLarge flagged data iv key = aesDecryptLarge this data iv key /\
     rsaEncrypt flagged data key algorithm = rsaEncrypt this data key algorithm /\
     rsaDecrypt flagged data key algorithm = rsaDecrypt this data key algorithm).
Proof.
  intros forge this flag data iv key algorithm flagged. split.
  - subst flagged; (split; [|split; [|split; [|split]]]);
      run_service; (apply uses_cons; reflexivity).
  - split; [|split; [|split; [|split]]]; reflexivity.
Qed.

(** C10.  Every call of [rsaEncrypt] first imports the public key with
    format 'spki', extractable = false and usages ['encrypt'], and every
    call of [rsaDecrypt] first imports the private key with format 'pkcs8',
    extractable = false and usages ['decrypt'].  That import is the only
    one of the call.  When the platform rejects it, the method rejects with
    the same error and calls nothing else; otherwise the one remaining call
    encrypts (decrypts) with the key handle just imported. *)
Theorem rsa_imports_key_per_call :
  forall (this : WebCryptoFunctionService) (data keyData : ArrayBuffer)
         (algorithm : AlgorithmId),
    let subtle := this_subtle this in
    let rsaParams := AlgHash "RSA-OAEP" (toWebCryptoAlgorithm algorithm) in
    let importPublic := SubtleImportKey "spki" keyData rsaParams false ["encrypt"] in
    let importPrivate := SubtleImportKey "pkcs8" keyData rsaParams false ["decrypt"] in
    rsaEncrypt this data keyData algorithm =
      match WebCrypto.importKey subtle "spki" keyData rsaParams false ["encrypt"] with
      | Throw e => ([importPublic], Ok (Rejected e))
      | Ok impKey =>
          ([importPublic; SubtleEncrypt rsaParams impKey data],
           Ok (match WebCrypto.encrypt subtle rsaParams impKey data with
               | Ok out => Resolved out
               | Throw e => Rejected e
               end))
      end
    /\
    rsaDecrypt this data keyData algorithm =
      match WebCrypto.importKey subtle "pkcs8" keyData rsaParams false ["decrypt"] with
      | Throw e => ([importPrivate], Ok (Rejected e))
      | Ok impKey =>
          ([importPrivate; SubtleDecrypt rsaParams impKey data],
           Ok (match WebCrypto.decrypt subtle rsaParams impKey data with
               | Ok out => Resolved out
               | Throw e => Rejected e
               end))
      end.
Proof.
  intros this data keyData algorithm subtle rsaParams importPublic importPrivate.
  split; subst subtle rsaParams importPublic importPrivate; run_service; reflexivity.
Qed.

(* ===================================================================== *)
(** ** Identifiers outside the enumerated set *)
(* ===================================================================== *)





(* ===================================================================== *)
(** ** Decryption failures on the forge path *)
(* ===================================================================== *)

(** C1, what the code does.  forge's [finish()] reports a failed padding
    check by returning [false]; [aesDecryptSmall] drops that result.  So
    when [finish()] returns [false] the promise is still resolved, with
    whatever bytes the decipher's output buffer holds, and not rejected. *)
Theorem aesDecryptSmall_drops_finish_result :
  forall (forge : Forge.Lib) (this : WebCryptoFunctionService)
         (data iv key : ArrayBuffer)
         (d0 d1 d2 d3 : Forge.BlockCipher forge),
    Forge.cipher_createDecipher forge "AES-CBC" (Utils.fromBufferToByteString key) = Ok d0 ->
    Forge.cipher_start forge d0 (Utils.fromBufferToByteString iv) = Ok d1 ->
    Forge.cipher_update forge d1
      (Forge.util_createBuffer forge (Utils.fromBufferToByteString data)) = Ok d2 ->
    Forge.cipher_finish forge d2 = Ok (false, d3) ->
    promise_of (aesDecryptSmall forge this data iv key) =
      Ok (Resolved (Utils.fromByteStringToArray
                      (Forge.buffer_getBytes forge (Forge.cipher_output forge d3)))).
Proof.
  intros forge this data iv key d0 d1 d2 d3 H0 H1 H2 H3.
  unfold_service. rewrite H0. cbn. rewrite H1. cbn. rewrite H2. cbn. rewrite H3.
  reflexivity.
Qed.

(** C1 at a concrete input: on the reference forge the padding check of
    [bad_padding_block] fails, and [aesDecryptSmall] resolves with the
    sixteen unchecked bytes; [aesDecryptLarge], on the platform, rejects. *)
Lemma aesDecryptSmall_drops_finish_result_witness :
  let forge := Model.forge Model.primitives Model.utf8 in
  let this := Model.service Model.primitives false in
  AES_CBC_decrypt Model.primitives zero_block zero_block bad_padding_block = None /\
  promise_of (aesDecryptSmall forge this bad_padding_block zero_block zero_block) =
    Ok (Resolved bad_padding_block) /\
  promise_of (aesDecryptLarge this bad_padding_block zero_block zero_block) =
    Ok (Rejected "OperationError").
Proof.
  intros forge this.
  split; [reflexivity|]. split; [|reflexivity].
  set (k := {| Model.dec_key := Utils.fromBufferToByteString zero_block;
               Model.dec_iv := []; Model.dec_input := []; Model.dec_output := [] |}).
  set (s := {| Model.dec_key := Utils.fromBufferToByteString zero_block;
               Model.dec_iv := Utils.fromBufferToByteString zero_block;
               Model.dec_input := []; Model.dec_output := [] |}).
  set (u := {| Model.dec_key := Utils.fromBufferToByteString zero_block;
               Model.dec_iv := Utils.fromBufferToByteString zero_block;
               Model.dec_input := Utils.fromBufferToByteString bad_padding_block;
               Model.dec_output := [] |}).
  set (f := {| Model.dec_key := Utils.fromBufferToByteString zero_block;
               Model.dec_iv := Utils.fromBufferToByteString zero_block;
               Model.dec_input := [];
               Model.dec_output := Utils.fromBufferToByteString bad_padding_block |}).
  exact (aesDecryptSmall_drops_finish_result forge this
           bad_padding_block zero_block zero_block k s u f
           eq_refl eq_refl eq_refl eq_refl).
Defined.

(* ===================================================================== *)
(** ** Random bytes *)
(* ===================================================================== *)

(** C8, as the code has it.  On a platform whose [getRandomValues] fills
    every view of at most 65536 bytes, [randomBytes(n)] for 0 <= n <= 65536
    returns a promise resolved with a buffer of exactly n bytes; for n = 0
    the buffer is empty. *)
Theorem randomBytes_length :
  forall (this : WebCryptoFunctionService) (n : Z),
    (forall m : nat,
        (Z.of_nat m <= 65536)%Z ->
        exists fill, WebCrypto.getRandomValues (this_crypto this) m = Ok fill) ->
    (0 <= n <= 65536)%Z ->
    resolves_with_length (randomBytes this n) (Z.to_nat n) /\
    resolves_to (randomBytes this 0) [].
Proof.
  intros this n Hquota Hn.
  assert (Hrun : forall k, (0 <= k <= 65536)%Z ->
             exists fill,
               randomBytes this k =
                 ([CryptoGetRandomValues (Z.to_nat k)],
                  Ok (Resolved (map fill (seq 0 (Z.to_nat k)))))).
  { intros k Hk. destruct (Hquota (Z.to_nat k) ltac:(lia)) as [fill Hfill]. exists fill.
    unfold randomBytes, new_Uint8Array, crypto_getRandomValues, call,
           max_typed_array_length.
    replace (k <? 0)%Z with false by (symmetry; apply Z.ltb_ge; lia).
    replace (9007199254740991 <? k)%Z with false by (symmetry; apply Z.ltb_ge; lia).
    cbn [orb]. simpl_eff. rewrite repeat_length, Hfill. reflexivity. }
  split.
  - destruct (Hrun n Hn) as [fill Hn']. eexists.
    split; [unfold promise_of, outcome_of; now rewrite Hn'|].
    now rewrite length_map, length_seq.
  - destruct (Hrun 0%Z ltac:(lia)) as [fill H0].
    unfold resolves_to, promise_of, outcome_of. now rewrite H0.
Qed.

Lemma randomBytes_length_witness :
  let this := Model.service Model.primitives false in
  (forall m : nat,
      (Z.of_nat m <= 65536)%Z ->
      exists fill, WebCrypto.getRandomValues (this_crypto this) m = Ok fill) /\
  (0 <= 3 <= 65536)%Z /\
  resolves_with_length (randomBytes this 3) 3.
Proof.
  intros this.
  assert (Hquota : forall m : nat,
             (Z.of_nat m <= 65536)%Z ->
             exists fill, WebCrypto.getRandomValues (this_crypto this) m = Ok fill).
  { intros m Hm. cbn.
    replace (N.of_nat m <=? 65536)%N with true by (symmetry; apply N.leb_le; lia).
    eexists. reflexivity. }
  split; [exact Hquota|]. split; [lia|].
  exact (proj1 (randomBytes_length this 3 Hquota ltac:(lia))).
Defined.

(** C8 as stated fails: the platform's [getRandomValues] refuses a view of
    more than 65536 bytes, and [randomBytes(65537)] throws instead of
    resolving to 65537 bytes. *)
Lemma randomBytes_over_quota :
  let this := Model.service Model.primitives false in
  (0 <= 65537)%Z /\
  promise_of (randomBytes this 65537) = Throw "QuotaExceededError" /\
  ~ resolves_with_length (randomBytes this 65537) 65537.
Proof.
  cbv zeta.
  assert (H : promise_of (randomBytes (Model.service Model.primitives false) 65537) =
              Throw "QuotaExceededError") by (vm_compute; reflexivity).
  split; [lia|]. split; [exact H|].
  intros (buf & Hbuf & _). rewrite H in Hbuf. discriminate.
Qed.

(* ===================================================================== *)
(** ** The reference providers conform *)
(* ===================================================================== *)

Lemma to_N_toUint8 (n : N) : (n < 256)%N -> Byte.to_N (Utils.toUint8 n) = n.
Proof.
  intros Hn. unfold Utils.toUint8. rewrite N.mod_small by exact Hn.
  destruct (Byte.of_N n) as [b|] eqn:E.
  - now apply Byte.to_of_N.
  - apply Byte.of_N_None_iff in E. lia.
Qed.

Lemma forallb_eqb_repeat (b : byte) (n : nat) :
  forallb (Byte.eqb b) (repeat b n) = true.
Proof.
  induction n as [|n IH]; cbn; [reflexivity|].
  now rewrite (Byte.byte_dec_lb (eq_refl b)), IH.
Qed.

Lemma pad_length_bounds (len : nat) :
  1 <= 16 - len mod 16 <= 16 /\ (len + (16 - len mod 16)) mod 16 = 0.
Proof.
  pose proof (Nat.mod_upper_bound len 16 ltac:(lia)) as Hr.
  split; [lia|].
  pose proof (Nat.div_mod_eq len 16) as Hd.
  replace (len + (16 - len mod 16)) with ((len / 16 + 1) * 16) by lia.
  apply Nat.Div0.mod_mul.
Qed.

Lemma pkcs7_unpad_pad (p : ArrayBuffer) :
  Model.pkcs7_unpad (Model.pkcs7_pad p) = Some p.
Proof.
  unfold Model.pkcs7_unpad, Model.pkcs7_pad.
  destruct (pad_length_bounds (List.length p)) as [Hn Hmod].
  set (n := 16 - List.length p mod 16) in *.
  set (b := Utils.toUint8 (N.of_nat n)).
  assert (Hb : N.to_nat (Byte.to_N b) = n).
  { subst b. rewrite to_N_toUint8 by lia. apply Nat2N.id. }
  assert (Hlast : last (p ++ repeat b n) x00 = b).
  { destruct n as [|m]; [lia|]. cbn [repeat].
    rewrite repeat_cons, app_assoc. apply last_last. }
  cbv zeta. rewrite Hlast, Hb, length_app, repeat_length.
  replace (List.length p + n - n) with (List.length p) by lia.
  rewrite skipn_app, skipn_all, Nat.sub_diag. cbn [skipn app].
  rewrite forallb_eqb_repeat, Hmod.
  rewrite firstn_app, firstn_all, Nat.sub_diag. cbn [firstn].
  rewrite app_nil_r.
  replace (1 <=? n)%nat with true by (symmetry; apply Nat.leb_le; lia).
  replace (n <=? 16)%nat with true by (symmetry; apply Nat.leb_le; lia).
  replace (n <=? List.length p + n)%nat with true by (symmetry; apply Nat.leb_le; lia).
  reflexivity.
Qed.

Lemma model_primitives_laws : PrimitivesLaws Model.primitives.
Proof.
  constructor; cbn.
  - intros; apply repeat_length.
  - intros; apply repeat_length.
  - intros; apply repeat_length.
  - intros key iv p _ _. apply pkcs7_unpad_pad.
Qed.

Lemma model_hash_of_id (h : HashFunction) : Model.hash_of_id (id_of h) = Some h.
Proof. now destruct h. Qed.

Lemma model_hash_of_name (h : HashFunction) :
  Model.hash_of_name (webcrypto_name h) = Some h.
Proof. now destruct h. Qed.

(** Where the padding is valid, forge's cut is the padding's. *)
Lemma pkcs7_unpad_cut (x p : ArrayBuffer) :
  Model.pkcs7_unpad x = Some p ->
  let count := N.to_nat (Byte.to_N (last x x00)) in
  (List.length x mod 16 =? 0)%nat = true /\
  (64 <? count)%nat = false /\
  firstn (List.length x - count) x = p.
Proof.
  unfold Model.pkcs7_unpad. cbv zeta.
  destruct (_ && _) eqn:Hcheck; [|discriminate].
  intros [= <-].
  apply andb_prop in Hcheck as [Hcheck _].
  apply andb_prop in Hcheck as [Hcheck Hmod].
  apply andb_prop in Hcheck as [Hcheck _].
  apply andb_prop in Hcheck as [_ H16].
  apply Nat.leb_le in H16.
  split; [exact Hmod|]. split; [|reflexivity].
  apply Nat.ltb_ge. lia.
Qed.

Lemma model_forge_conforms :
  ForgeConforms Model.primitives (Model.forge Model.primitives Model.utf8) Model.utf8.
Proof.
  constructor.
  - reflexivity.
  - reflexivity.
  - intros h value. do 2 eexists.
    destruct h; (split; [reflexivity|]); (split; [reflexivity|]);
      cbn [Forge.buffer_data Forge.md_sha1_create Forge.md_sha256_create
           Forge.md_sha512_create md_create_of Model.forge fst snd app];
      unfold Model.bytes, Model.bstr; now rewrite fromByteString_fromBuffer.
  - intros h key value.
    cbn [Forge.hmac_start Forge.hmac_create Forge.hmac_update Forge.hmac_digest
         Forge.buffer_getBytes Model.forge].
    rewrite model_hash_of_id. do 3 eexists.
    do 3 (split; [reflexivity|]).
    cbn [fst snd app]. unfold Model.bytes, Model.bstr.
    now rewrite !fromByteString_fromBuffer.
  - intros h password salt c dkLen _ _. cbn [Forge.pbkdf2 Model.forge].
    rewrite model_hash_of_id.
    unfold Model.bytes, Model.bstr. now rewrite !fromByteString_fromBuffer.
  - intros key iv data p Hkey Hiv Hdec.
    change (Model.pkcs7_unpad data = Some p) in Hdec.
    destruct (pkcs7_unpad_cut data p Hdec) as (Hmod & Hcount & Hcut).
    set (d2 := {| Model.dec_key := Utils.fromBufferToByteString key;
                  Model.dec_iv := Utils.fromBufferToByteString iv;
                  Model.dec_input := Utils.fromBufferToByteString data;
                  Model.dec_output := [] |}).
    assert (Hfin : Model.decipher_finish Model.primitives d2 =
                   (true, {| Model.dec_key := Utils.fromBufferToByteString key;
                             Model.dec_iv := Utils.fromBufferToByteString iv;
                             Model.dec_input := [];
                             Model.dec_output := Utils.fromBufferToByteString p |})).
    { unfold Model.decipher_finish, Model.bytes, Model.bstr. subst d2.
      cbn [Model.dec_key Model.dec_iv Model.dec_input AES_CBC_blocks Model.primitives].
      rewrite !fromByteString_fromBuffer, Hmod, Hcount. cbn [negb orb].
      now rewrite Hcut. }
    exists {| Model.dec_key := Utils.fromBufferToByteString key; Model.dec_iv := [];
              Model.dec_input := []; Model.dec_output := [] |},
           {| Model.dec_key := Utils.fromBufferToByteString key;
              Model.dec_iv := Utils.fromBufferToByteString iv;
              Model.dec_input := []; Model.dec_output := [] |},
           d2, (snd (Model.decipher_finish Model.primitives d2)).
    split.
    { cbn [Forge.cipher_createDecipher Model.forge]. unfold Model.bytes.
      now rewrite fromByteString_fromBuffer, Hkey. }
    split.
    { cbn [Forge.cipher_start Model.forge Model.dec_key]. unfold Model.bytes.
      now rewrite fromByteString_fromBuffer, Hiv. }
    split; [reflexivity|].
    cbn [Forge.cipher_finish Forge.cipher_output Forge.buffer_getBytes Model.forge].
    rewrite Hfin. split; reflexivity.
Qed.

Lemma model_subtle_conforms (P : Primitives) : SubtleConforms P (Model.subtle P).
Proof.
  constructor.
  - intros h data. now destruct h.
  - intros h key Hkey. destruct key as [|b key]; [contradiction|].
    destruct h; (eexists; split; [reflexivity|]); intros data; reflexivity.
  - intros password. eexists. split; [reflexivity|].
    intros h salt c bits Hc Hbits Hmod.
    assert (H0 : (0 <=? c)%Z = true) by (apply Z.leb_le; lia).
    assert (H1 : (c <? 4294967296)%Z = true) by (apply Z.ltb_lt; lia).
    assert (H2 : (0 <? c)%Z = true) by (apply Z.ltb_lt; lia).
    assert (H3 : (0 <? bits)%Z = true) by (apply Z.ltb_lt; lia).
    apply Z.eqb_eq in Hmod.
    destruct h; cbn; now rewrite H0, H1, H2, H3, Hmod.
  - intros key Hkey. cbn. unfold Model.importKey. cbn. rewrite Hkey.
    eexists. split; [reflexivity|]. intros iv data Hiv. cbn. now rewrite Hiv.
  - intros key Hkey. cbn. unfold Model.importKey. cbn. rewrite Hkey.
    eexists. split; [reflexivity|]. intros iv data Hiv. cbn. rewrite Hiv.
    destruct (AES_CBC_decrypt P key iv data); [reflexivity|]. now eexists.
Qed.

(* ===================================================================== *)
(** ** What the methods compute, on conforming providers *)
(* ===================================================================== *)

Section OnConformingProviders.

Variable P : Primitives.
Variable forge : Forge.Lib.
Variable fromUtf8ToArray : JsString -> ArrayBuffer.
Variable this : WebCryptoFunctionService.

Hypothesis forge_ok : ForgeConforms P forge fromUtf8ToArray.
Hypothesis subtle_ok : SubtleConforms P (this_subtle this).

Local Abbreviation bstr := Utils.fromBufferToByteString.

(** Both bridges carry the same bytes. *)
Lemma toByteString_toBuf (value : StringOrBuffer) :
  well_formed_text value = true ->
  exists calls,
    toByteString forge value = (calls, Ok (bstr (toBuf fromUtf8ToArray value))).
Proof.
  destruct value as [s|b]; cbn; intros Hwf.
  - eexists. unfold forge_util_encodeUtf8, call_total.
    now rewrite (forge_encodes_utf8 _ _ _ forge_ok s Hwf).
  - now eexists.
Qed.

Lemma hash_computes (h : HashFunction) (value : StringOrBuffer) :
  well_formed_text value = true ->
  promise_of (hash forge fromUtf8ToArray this value (id_of h)) =
    Ok (Resolved (HASH P h (toBuf fromUtf8ToArray value))).
Proof.
  intros Hwf. unfold hash. destruct (this_isEdge this).
  - destruct (toByteString_toBuf value Hwf) as [calls Hv].
    destruct (forge_computes_hash _ _ _ forge_ok h (toBuf fromUtf8ToArray value))
      as (md & d & Hup & Hdig & Hdata).
    destruct h; cbn [id_of md_create_of String.eqb Ascii.eqb Bool.eqb] in *;
      unfold_calls; rewrite Hv; simpl_eff; rewrite Hup; simpl_eff;
      rewrite Hdig; simpl_eff; rewrite Hdata;
      now rewrite fromByteString_fromBuffer.
  - unfold_calls.
    replace (toWebCryptoAlgorithm (id_of h)) with (webcrypto_name h) by now destruct h.
    now rewrite (subtle_computes_hash _ _ subtle_ok).
Qed.

Lemma hmac_computes (h : HashFunction) (value key : ArrayBuffer) :
  this_isEdge this = true \/ key <> [] ->
  promise_of (hmac forge this value key (id_of h)) =
    Ok (Resolved (HMAC P h key value)).
Proof.
  intros Hkey. unfold hmac. destruct (this_isEdge this).
  - destruct (forge_computes_hmac _ _ _ forge_ok h key value)
      as (m1 & m2 & d & Hstart & Hup & Hdig & Hbytes).
    unfold toByteString. unfold_calls.
    rewrite Hstart; simpl_eff; rewrite Hup; simpl_eff; rewrite Hdig; simpl_eff.
    now rewrite Hbytes, fromByteString_fromBuffer.
  - destruct Hkey as [Hedge|Hkey]; [discriminate|].
    unfold_calls.
    replace (toWebCryptoAlgorithm (id_of h)) with (webcrypto_name h) by now destruct h.
    destruct (subtle_computes_hmac _ _ subtle_ok h key Hkey) as (k & Himp & Hsign).
    rewrite Himp; simpl_eff. now rewrite Hsign.
Qed.

Lemma pbkdf2_computes (h : HashFunction) (password salt : StringOrBuffer)
    (iterations : Z) :
  well_formed_text password = true ->
  well_formed_text salt = true ->
  (0 < iterations < 4294967296)%Z ->
  promise_of (pbkdf2 forge fromUtf8ToArray this password salt (id_of h) iterations) =
    Ok (Resolved (PBKDF2 P h (toBuf fromUtf8ToArray password)
                         (toBuf fromUtf8ToArray salt) iterations (derived_key_size h))).
Proof.
  intros Hpw Hsalt Hit. unfold pbkdf2. destruct (this_isEdge this).
  - destruct (toByteString_toBuf password Hpw) as [calls1 Hp].
    destruct (toByteString_toBuf salt Hsalt) as [calls2 Hs].
    unfold_calls. rewrite Hp; simpl_eff. rewrite Hs; simpl_eff.
    rewrite (forge_computes_pbkdf2 _ _ _ forge_ok) by (destruct h; cbn; lia).
    simpl_eff. rewrite !fromByteString_fromBuffer.
    now destruct h.
  - unfold_calls.
    replace (toWebCryptoAlgorithm (id_of h)) with (webcrypto_name h) by now destruct h.
    destruct (subtle_computes_pbkdf2 _ _ subtle_ok (toBuf fromUtf8ToArray password))
      as (k & Himp & Hderive).
    rewrite Himp; simpl_eff.
    rewrite Hderive by (destruct h; cbn; lia || reflexivity).
    now destruct h.
Qed.

Lemma aesEncrypt_computes (data iv key : ArrayBuffer) :
  valid_aes_key key = true -> valid_iv iv = true ->
  promise_of (aesEncrypt this data iv key) =
    Ok (Resolved (AES_CBC_encrypt P key iv data)).
Proof.
  intros Hkey Hiv. unfold aesEncrypt. unfold_calls.
  destruct (subtle_computes_aes_encrypt _ _ subtle_ok key Hkey) as (k & Himp & Henc).
  rewrite Himp; simpl_eff. now rewrite Henc.
Qed.

Lemma aesDecryptLarge_computes (data iv key : ArrayBuffer) :
  valid_aes_key key = true -> valid_iv iv = true ->
  match AES_CBC_decrypt P key iv data with
  | Some p => promise_of (aesDecryptLarge this data iv key) = Ok (Resolved p)
  | None => exists e, promise_of (aesDecryptLarge this data iv key) = Ok (Rejected e)
  end.
Proof.
  intros Hkey Hiv. unfold aesDecryptLarge. unfold_calls.
  destruct (subtle_computes_aes_decrypt _ _ subtle_ok key Hkey) as (k & Himp & Hdec).
  rewrite Himp; simpl_eff. specialize (Hdec iv data Hiv).
  destruct (AES_CBC_decrypt P key iv data) as [p|].
  - now rewrite Hdec.
  - destruct Hdec as [e He]. exists e. now rewrite He.
Qed.

Lemma aesDecryptSmall_computes (data iv key p : ArrayBuffer) :
  valid_aes_key key = true -> valid_iv iv = true ->
  AES_CBC_decrypt P key iv data = Some p ->
  promise_of (aesDecryptSmall forge this data iv key) = Ok (Resolved p).
Proof.
  intros Hkey Hiv Hdec. unfold aesDecryptSmall, toByteString. unfold_calls.
  destruct (forge_computes_aes_cbc _ _ _ forge_ok key iv data p Hkey Hiv Hdec)
    as (d0 & d1 & d2 & d3 & H0 & H1 & H2 & H3 & Hout).
  rewrite H0; simpl_eff. rewrite H1; simpl_eff. rewrite H2; simpl_eff.
  rewrite H3; simpl_eff.
  now rewrite Hout, fromByteString_fromBuffer.
Qed.

End OnConformingProviders.

(** C7, as the code has it.  On providers that compute the standard
    primitives, the forge path and the platform path of [hash], [hmac] and
    [pbkdf2] resolve to the same bytes for every identifier of the
    enumerated set and every input whose texts are well formed, whose HMAC
    key is not empty and whose iteration count is an unsigned long other
    than 0: both to the hash, to the HMAC, and to the PBKDF2 output of the
    hash function the identifier names. *)
Theorem both_paths_same_primitive :
  forall (P : Primitives) (forge : Forge.Lib) (fromUtf8ToArray : JsString -> ArrayBuffer)
         (this : WebCryptoFunctionService) (h : HashFunction)
         (value password salt : StringOrBuffer) (data key : ArrayBuffer) (iterations : Z),
    ForgeConforms P forge fromUtf8ToArray ->
    SubtleConforms P (this_subtle this) ->
    well_formed_text value = true ->
    well_formed_text password = true ->
    well_formed_text salt = true ->
    key <> [] ->
    (0 < iterations < 4294967296)%Z ->
    let edge := with_isEdge true this in
    let native := with_isEdge false this in
    let digest := HASH P h (toBuf fromUtf8ToArray value) in
    let mac := HMAC P h key data in
    let derived := PBKDF2 P h (toBuf fromUtf8ToArray password)
                          (toBuf fromUtf8ToArray salt) iterations (derived_key_size h) in
    (resolves_to (hash forge fromUtf8ToArray edge value (id_of h)) digest /\
     resolves_to (hash forge fromUtf8ToArray native value (id_of h)) digest) /\
    (resolves_to (hmac forge edge data key (id_of h)) mac /\
     resolves_to (hmac forge native data key (id_of h)) mac) /\
    (resolves_to (pbkdf2 forge fromUtf8ToArray edge password salt (id_of h) iterations)
                 derived /\
     resolves_to (pbkdf2 forge fromUtf8ToArray native password salt (id_of h) iterations)
                 derived).
Proof.
  intros P forge utf8 this h value password salt data key iterations
         HF HS Hvalue Hpw Hsalt Hkey Hit.
  cbv zeta. unfold resolves_to.
  repeat split.
  - apply (hash_computes P forge utf8 (with_isEdge true this) HF HS); exact Hvalue.
  - apply (hash_computes P forge utf8 (with_isEdge false this) HF HS); exact Hvalue.
  - apply (hmac_computes P forge utf8 (with_isEdge true this) HF HS). now right.
  - apply (hmac_computes P forge utf8 (with_isEdge false this) HF HS). now right.
  - apply (pbkdf2_computes P forge utf8 (with_isEdge true this) HF HS); assumption.
  - apply (pbkdf2_computes P forge utf8 (with_isEdge false this) HF HS); assumption.
Qed.

Lemma both_paths_same_primitive_witness :
  let P := Model.primitives in
  let forge := Model.forge P Model.utf8 in
  let this := Model.service P true in
  ForgeConforms P forge Model.utf8 /\
  SubtleConforms P (this_subtle this) /\
  well_formed_text (Str [97%N]) = true /\
  [x6b] <> ([] : ArrayBuffer) /\
  (0 < 5000 < 4294967296)%Z /\
  exists mac,
    resolves_to (hmac forge (with_isEdge true this) [x64] [x6b] "sha256") mac /\
    resolves_to (hmac forge (with_isEdge false this) [x64] [x6b] "sha256") mac.
Proof.
  intros P forge this.
  split; [apply model_forge_conforms|].
  split; [apply model_subtle_conforms|].
  split; [reflexivity|].
  split; [discriminate|].
  split; [lia|].
  eexists.
  exact (proj1 (proj2 (both_paths_same_primitive P forge Model.utf8 this SHA256
                  (Str [97%N]) (Buf [x70]) (Buf [x73]) [x64] [x6b] 5000
                  model_forge_conforms (model_subtle_conforms P)
                  eq_refl eq_refl eq_refl ltac:(discriminate) ltac:(lia)))).
Defined.

(** C7 as stated fails at an empty HMAC key: the forge path resolves with
    a MAC, while on the platform path the import of the empty key is
    refused (a DataError) and the promise is rejected. *)
Lemma hmac_empty_key_paths_differ :
  let forge := Model.forge Model.primitives Model.utf8 in
  let this := Model.service Model.primitives true in
  (exists mac,
     promise_of (hmac forge (with_isEdge true this) [x64] [] "sha256") =
       Ok (Resolved mac) /\
     List.length mac = 32) /\
  promise_of (hmac forge (with_isEdge false this) [x64] [] "sha256") =
    Ok (Rejected "DataError") /\
  promise_of (hmac forge (with_isEdge true this) [x64] [] "sha256") <>
    promise_of (hmac forge (with_isEdge false this) [x64] [] "sha256").
Proof.
  cbv zeta. split; [eexists; split; reflexivity|]. split; [reflexivity|].
  intros H. vm_compute in H. discriminate.
Qed.




(** C6.  On providers that compute AES-CBC, for every plaintext [p], every
    16-byte IV and every AES key, [aesEncrypt] resolves with a ciphertext
    that both [aesDecryptLarge] and [aesDecryptSmall] decrypt, under the
    same IV and key, to [p]. *)
Theorem aes_decrypt_inverts_encrypt :
  forall (P : Primitives) (forge : Forge.Lib) (fromUtf8ToArray : JsString -> ArrayBuffer)
         (this : WebCryptoFunctionService) (p iv key : ArrayBuffer),
    PrimitivesLaws P ->
    ForgeConforms P forge fromUtf8ToArray ->
    SubtleConforms P (this_subtle this) ->
    valid_aes_key key = true ->
    valid_iv iv = true ->
    exists ciphertext,
      resolves_to (aesEncrypt this p iv key) ciphertext /\
      resolves_to (aesDecryptLarge this ciphertext iv key) p /\
      resolves_to (aesDecryptSmall forge this ciphertext iv key) p.
Proof.
  intros P forge utf8 this p iv key HL HF HS Hkey Hiv.
  exists (AES_CBC_encrypt P key iv p). unfold resolves_to.
  pose proof (AES_CBC_inverse P HL key iv p Hkey Hiv) as Hinv.
  split; [|split].
  - now apply (aesEncrypt_computes P this HS).
  - pose proof (aesDecryptLarge_computes P this HS
                  (AES_CBC_encrypt P key iv p) iv key Hkey Hiv) as H.
    now rewrite Hinv in H.
  - exact (aesDecryptSmall_computes P forge utf8 this HF
             (AES_CBC_encrypt P key iv p) iv key p Hkey Hiv Hinv).
Qed.

Lemma aes_decrypt_inverts_encrypt_witness :
  let P := Model.primitives in
  let forge := Model.forge P Model.utf8 in
  let this := Model.service P false in
  let p := [x68; x65; x6c; x6c; x6f] in
  PrimitivesLaws P /\
  ForgeConforms P forge Model.utf8 /\
  SubtleConforms P (this_subtle this) /\
  valid_aes_key zero_block = true /\
  valid_iv zero_block = true /\
  exists ciphertext,
    resolves_to (aesEncrypt this p zero_block zero_block) ciphertext /\
    resolves_to (aesDecryptLarge this ciphertext zero_block zero_block) p /\
    resolves_to (aesDecryptSmall forge this ciphertext zero_block zero_block) p.
Proof.
  intros P forge this p.
  split; [apply model_primitives_laws|].
  split; [apply model_forge_conforms|].
  split; [apply model_subtle_conforms|].
  split; [reflexivity|].
  split; [reflexivity|].
  exact (aes_decrypt_inverts_encrypt P forge Model.utf8 this p zero_block zero_block
           model_primitives_laws model_forge_conforms
           (model_subtle_conforms P) eq_refl eq_refl).
Defined.

(* ===================================================================== *)
(** ** Further properties of the service *)
(* ===================================================================== *)

Ltac solve_keyed :=
  cbn [keyed_per_call key_of purpose algorithm_of alg_name alg_hash List.length];
  repeat match goal with
         | |- True => exact I
         | |- _ /\ _ => split
         | |- exists _, _ => eexists
         | |- _ \/ _ => first [left; reflexivity | right; reflexivity]
         | |- _ = _ => first [reflexivity | eassumption]
         end.

(** X1.  In every run of every method, each key handle is imported for the
    one operation that follows it: never extractable, with that operation's
    usage as its only usage and under that operation's algorithm name.  No
    operation is given a key from anywhere else, and an import that nothing
    follows is one the platform refused. *)
Theorem keys_imported_per_use :
  forall (forge : Forge.Lib) (fromUtf8ToArray : JsString -> ArrayBuffer)
         (this : WebCryptoFunctionService)
         (password salt value : StringOrBuffer) (data iv key : ArrayBuffer)
         (algorithm : AlgorithmId) (iterations length : Z),
    let s := this_subtle this in
    keyed_per_call s
      (calls_of (pbkdf2 forge fromUtf8ToArray this password salt algorithm iterations)) /\
    keyed_per_call s (calls_of (hash forge fromUtf8ToArray this value algorithm)) /\
    keyed_per_call s (calls_of (hmac forge this data key algorithm)) /\
    keyed_per_call s (calls_of (aesEncrypt this data iv key)) /\
    keyed_per_call s (calls_of (aesDecryptSmall forge this data iv key)) /\
    keyed_per_call s (calls_of (aesDecryptLarge this data iv key)) /\
    keyed_per_call s (calls_of (rsaEncrypt this data key algorithm)) /\
    keyed_per_call s (calls_of (rsaDecrypt this data key algorithm)) /\
    keyed_per_call s (calls_of (randomBytes this length)).
Proof.
  intros forge utf8 this password salt value data iv key algorithm iterations length s.
  subst s.
  split; [|split; [|split; [|split; [|split; [|split; [|split; [|split]]]]]]].
  all: destruct password, salt, value; run_service; solve_keyed.
Qed.

(** X2.  When the platform refuses key imports with an error, each of the
    six methods that import a key (off Edge, for [pbkdf2] and [hmac])
    rejects with that very error after the one import call: the operation
    itself is never attempted. *)
Theorem refused_import_rejects :
  forall (forge : Forge.Lib) (fromUtf8ToArray : JsString -> ArrayBuffer)
         (this : WebCryptoFunctionService) (e : JsError)
         (password salt : StringOrBuffer) (data iv key : ArrayBuffer)
         (algorithm : AlgorithmId) (iterations : Z),
    (forall format keyData alg extractable usages,
        WebCrypto.importKey (this_subtle this) format keyData alg extractable usages =
          Throw e) ->
    let native := with_isEdge false this in
    let import_only (m : Eff (Settled ArrayBuffer)) :=
      exists format keyData alg usages,
        m = ([SubtleImportKey format keyData alg false usages], Ok (Rejected e)) in
    import_only (pbkdf2 forge fromUtf8ToArray native password salt algorithm iterations) /\
    import_only (hmac forge native data key algorithm) /\
    import_only (aesEncrypt native data iv key) /\
    import_only (aesDecryptLarge native data iv key) /\
    import_only (rsaEncrypt native data key algorithm) /\
    import_only (rsaDecrypt native data key algorithm).
Proof.
  intros forge utf8 this e password salt data iv key algorithm iterations Hrefuse.
  cbv zeta.
  split; [|split; [|split; [|split; [|split]]]];
    unfold_service; rewrite Hrefuse; simpl_eff; do 4 eexists; reflexivity.
Qed.

Lemma refused_import_rejects_witness :
  let this := Refusing.service "DataError" in
  (forall format keyData alg extractable usages,
      WebCrypto.importKey (this_subtle this) format keyData alg extractable usages =
        Throw "DataError") /\
  exists format keyData alg usages,
    aesEncrypt (with_isEdge false this) [x68] zero_block [x6b] =
      ([SubtleImportKey format keyData alg false usages], Ok (Rejected "DataError")).
Proof.
  intros this. split; [reflexivity|].
  apply (refused_import_rejects (Model.forge Model.primitives Model.utf8) Model.utf8
           this "DataError" (Buf []) (Buf []) [x68] zero_block [x6b] "sha256" 1
           (fun _ _ _ _ _ => eq_refl)).
Defined.

(** X3.  An error thrown by forge while [aesDecryptSmall] sets up or runs
    the decipher (in [createDecipher], [start], [update] or [finish])
    rejects the promise with that error, and the output buffer is never
    read. *)
Theorem forge_error_rejects_aesDecryptSmall :
  forall (forge : Forge.Lib) (this : WebCryptoFunctionService)
         (data iv key : ArrayBuffer) (e : JsError),
    let keyBytes := Utils.fromBufferToByteString key in
    let ivBytes := Utils.fromBufferToByteString iv in
    let dataBuffer := Forge.util_createBuffer forge (Utils.fromBufferToByteString data) in
    (Forge.cipher_createDecipher forge "AES-CBC" keyBytes = Throw e \/
     exists d0, Forge.cipher_createDecipher forge "AES-CBC" keyBytes = Ok d0 /\
       (Forge.cipher_start forge d0 ivBytes = Throw e \/
        exists d1, Forge.cipher_start forge d0 ivBytes = Ok d1 /\
          (Forge.cipher_update forge d1 dataBuffer = Throw e \/
           exists d2, Forge.cipher_update forge d1 dataBuffer = Ok d2 /\
             Forge.cipher_finish forge d2 = Throw e))) ->
    promise_of (aesDecryptSmall forge this data iv key) = Ok (Rejected e) /\
    ~ In ForgeBufferGetBytes (calls_of (aesDecryptSmall forge this data iv key)).
Proof.
  intros forge this data iv key e keyBytes ivBytes dataBuffer H.
  subst keyBytes ivBytes dataBuffer. unfold_service.
  destruct H as [H0|(d0 & H0 & [H1|(d1 & H1 & [H2|(d2 & H2 & H3)])])];
    rewrite H0; simpl_eff; try rewrite H1; simpl_eff; try rewrite H2; simpl_eff;
    try rewrite H3; simpl_eff; (split; [reflexivity|]);
    cbn; intros Hin; repeat (destruct Hin as [Hin|Hin]; [discriminate|]); exact Hin.
Qed.

Lemma forge_error_rejects_aesDecryptSmall_witness :
  let forge := Model.forge Model.primitives Model.utf8 in
  let this := Model.service Model.primitives false in
  Forge.cipher_createDecipher forge "AES-CBC" (Utils.fromBufferToByteString [x6b]) =
    Throw "Unsupported algorithm or key size" /\
  promise_of (aesDecryptSmall forge this zero_block zero_block [x6b]) =
    Ok (Rejected "Unsupported algorithm or key size").
Proof.
  intros forge this. split; [reflexivity|].
  apply (forge_error_rejects_aesDecryptSmall forge this zero_block zero_block [x6b]
           "Unsupported algorithm or key size" (or_introl eq_refl)).
Defined.



(** X6.  Whatever identifier the caller passes, the platform never sees
    it: in every run of every method, each hash-function name handed to
    [SubtleCrypto] (in [digest], and in the descriptors of [importKey],
    [deriveBits], [sign], [encrypt] and [decrypt]) is one of 'SHA-1',
    'SHA-256' and 'SHA-512'. *)
Theorem platform_sees_known_names :
  forall (forge : Forge.Lib) (fromUtf8ToArray : JsString -> ArrayBuffer)
         (this : WebCryptoFunctionService)
         (password salt value : StringOrBuffer) (data iv key : ArrayBuffer)
         (algorithm : AlgorithmId) (iterations : Z),
    let known (m : Eff (Settled ArrayBuffer)) := forallb names_known (calls_of m) = true in
    known (pbkdf2 forge fromUtf8ToArray this password salt algorithm iterations) /\
    known (hash forge fromUtf8ToArray this value algorithm) /\
    known (hmac forge this data key algorithm) /\
    known (aesEncrypt this data iv key) /\
    known (aesDecryptSmall forge this data iv key) /\
    known (aesDecryptLarge this data iv key) /\
    known (rsaEncrypt this data key algorithm) /\
    known (rsaDecrypt this data key algorithm).
Proof.
  intros forge utf8 this password salt value data iv key algorithm iterations.
  cbv zeta.
  split; [|split; [|split; [|split; [|split; [|split; [|split]]]]]].
  all: destruct password, salt, value; unfold_service; unfold toWebCryptoAlgorithm;
    repeat case_answer; reflexivity.
Qed.

(** X7.  The provider a method does not use has no influence on it.  On
    Edge, [pbkdf2], [hash] and [hmac] run the same on any window and
    platform; off Edge they run the same with any forge.  [aesDecryptSmall]
    runs the same on any service object, and the methods of the platform
    path take no forge at all. *)
Theorem unused_provider_has_no_influence :
  forall (forge forge' : Forge.Lib) (fromUtf8ToArray : JsString -> ArrayBuffer)
         (this this' : WebCryptoFunctionService)
         (password salt value : StringOrBuffer) (data iv key : ArrayBuffer)
         (algorithm : AlgorithmId) (iterations : Z),
    let edge := with_isEdge true this in
    let edge' := with_isEdge true this' in
    let native := with_isEdge false this in
    (pbkdf2 forge fromUtf8ToArray edge password salt algorithm iterations =
       pbkdf2 forge fromUtf8ToArray edge' password salt algorithm iterations /\
     hash forge fromUtf8ToArray edge value algorithm =
       hash forge fromUtf8ToArray edge' value algorithm /\
     hmac forge edge data key algorithm = hmac forge edge' data key algorithm) /\
    (pbkdf2 forge fromUtf8ToArray native password salt algorithm iterations =
       pbkdf2 forge' fromUtf8ToArray native password salt algorithm iterations /\
     hash forge fromUtf8ToArray native value algorithm =
       hash forge' fromUtf8ToArray native value algorithm /\
     hmac forge native data key algorithm = hmac forge' native data key algorithm) /\
    aesDecryptSmall forge this data iv key = aesDecryptSmall forge this' data iv key.
Proof.
  intros. cbv zeta. repeat split; reflexivity.
Qed.

(** X10.  [randomBytes] with a negative length throws a RangeError to the
    caller, synchronously: no promise is returned and the platform's
    generator is not called. *)
Theorem randomBytes_negative_throws :
  forall (this : WebCryptoFunctionService) (n : Z),
    (n < 0)%Z ->
    randomBytes this n = ([], Throw "RangeError: Invalid typed array length").
Proof.
  intros this n Hn. unfold randomBytes, new_Uint8Array.
  replace (n <? 0)%Z with true by (symmetry; apply Z.ltb_lt; exact Hn).
  reflexivity.
Qed.

Lemma randomBytes_negative_throws_witness :
  (-1 < 0)%Z /\
  randomBytes (Model.service Model.primitives false) (-1) =
    ([], Throw "RangeError: Invalid typed array length").
Proof.
  split; [lia|].
  apply (randomBytes_negative_throws (Model.service Model.primitives false) (-1)). lia.
Defined.

(* ===================================================================== *)
(** ** DeviceResponse *)
(* ===================================================================== *)

Lemma lookup_filter_read (name : string) (properties : list (string * DeviceResponse.JsValue)) :
  In name DeviceResponse.names_read ->
  DeviceResponse.lookup name (filter DeviceResponse.is_read properties) =
    DeviceResponse.lookup name properties.
Proof.
  intros Hin. induction properties as [|[k v] rest IH]; [reflexivity|].
  cbn [filter DeviceResponse.lookup].
  destruct (DeviceResponse.is_read (k, v)) eqn:Hread.
  - cbn [DeviceResponse.lookup]. now rewrite IH.
  - destruct (String.eqb_spec k name) as [->|_]; [|exact IH].
    exfalso. unfold DeviceResponse.is_read in Hread. cbn [fst] in Hread.
    assert (H : existsb (String.eqb name) DeviceResponse.names_read = true).
    { apply existsb_exists. exists name. split; [exact Hin|apply String.eqb_refl]. }
    congruence.
Qed.

Lemma lookup_foreign (name : string) (properties : list (string * DeviceResponse.JsValue)) :
  In name DeviceResponse.names_read ->
  forallb (fun p => negb (DeviceResponse.is_read p)) properties = true ->
  DeviceResponse.lookup name properties = None.
Proof.
  intros Hin Hnone. rewrite <- (lookup_filter_read name properties Hin).
  induction properties as [|p rest IH]; [reflexivity|].
  cbn [forallb] in Hnone. apply andb_prop in Hnone as [Hp Hrest].
  cbn [filter]. apply negb_true_iff in Hp. rewrite Hp. now apply IH.
Qed.


(** X13.  Property names are matched exactly.  A response object that has
    none of the five names (one keyed in camelCase, say) gives, without
    any error, a device whose every field is [undefined]. *)
Theorem device_response_of_foreign_keys :
  forall properties : list (string * DeviceResponse.JsValue),
    forallb (fun p => negb (DeviceResponse.is_read p)) properties = true ->
    DeviceResponse.constructor (DeviceResponse.JsObject properties) =
      Ok DeviceResponse.all_undefined.
Proof.
  intros properties Hnone. unfold DeviceResponse.constructor, DeviceResponse.get.
  cbn [bind ret Monad_Outcome].
  rewrite !(fun name Hin => lookup_foreign name properties Hin Hnone) by (cbn; auto 10).
  reflexivity.
Qed.

Lemma device_response_of_foreign_keys_witness :
  let camel := [("id", DeviceResponse.JsText [49%N]);
                ("name", DeviceResponse.JsText [112%N; 99%N]);
                ("type", DeviceResponse.JsNumber 0)] in
  forallb (fun p => negb (DeviceResponse.is_read p)) camel = true /\
  DeviceResponse.constructor (DeviceResponse.JsObject camel) =
    Ok DeviceResponse.all_undefined.
Proof.
  intros camel. split; [reflexivity|].
  apply (device_response_of_foreign_keys camel eq_refl).
Defined.

(* ===================================================================== *)
(** ** BaseMenu *)
(* ===================================================================== *)

Section TrimFacts.

Variable isWhiteSpace : CodeUnit -> bool.

Lemma trimStart_nil (s : JsString) :
  BaseMenu.trimStart isWhiteSpace s = [] <-> forallb isWhiteSpace s = true.
Proof.
  induction s as [|c rest IH]; cbn; [tauto|].
  destruct (isWhiteSpace c); cbn; [exact IH|]. split; discriminate.
Qed.

(** What [trimStart] leaves begins with a character that is kept. *)
Lemma trimStart_blank (s : JsString) :
  forallb isWhiteSpace (BaseMenu.trimStart isWhiteSpace s) = true ->
  BaseMenu.trimStart isWhiteSpace s = [].
Proof.
  induction s as [|c rest IH]; cbn; [reflexivity|].
  destruct (isWhiteSpace c) eqn:Hc; [exact IH|].
  cbn. rewrite Hc. discriminate.
Qed.

Lemma forallb_rev (s : JsString) :
  forallb isWhiteSpace (rev s) = forallb isWhiteSpace s.
Proof.
  induction s as [|c rest IH]; [reflexivity|].
  cbn. rewrite forallb_app, IH. cbn. rewrite andb_true_r. apply andb_comm.
Qed.

Lemma trim_nil (s : JsString) :
  BaseMenu.trim isWhiteSpace s = [] <-> forallb isWhiteSpace s = true.
Proof.
  unfold BaseMenu.trim. split.
  - intros H. apply (f_equal (@rev CodeUnit)) in H. rewrite rev_involutive in H.
    cbn in H. apply trimStart_nil in H. rewrite forallb_rev in H.
    apply trimStart_blank in H. now apply trimStart_nil.
  - intros H. apply trimStart_nil in H. now rewrite H.
Qed.

Lemma selected_has_text (props : BaseMenu.ContextMenuParams) :
  BaseMenu.selected isWhiteSpace props =
    existsb (fun c => negb (isWhiteSpace c)) (BaseMenu.selectionText props).
Proof.
  unfold BaseMenu.selected.
  destruct (BaseMenu.selectionText props) as [|c rest] eqn:Htext; [reflexivity|].
  destruct (BaseMenu.trim isWhiteSpace (c :: rest)) as [|c' rest'] eqn:Htrim.
  - apply trim_nil in Htrim. symmetry. apply not_true_is_false. intros Hex.
    apply existsb_exists in Hex as (x & Hin & Hx).
    rewrite forallb_forall in Htrim. rewrite (Htrim x Hin) in Hx. discriminate.
  - symmetry. destruct (existsb _ _) eqn:Hex; [reflexivity|]. exfalso.
    assert (Hall : forallb isWhiteSpace (c :: rest) = true).
    { apply forallb_forall. intros x Hin.
      destruct (isWhiteSpace x) eqn:Hx; [reflexivity|].
      assert (existsb (fun c0 => negb (isWhiteSpace c0)) (c :: rest) = true)
        by (apply existsb_exists; exists x; now rewrite Hx).
      congruence. }
    apply trim_nil in Hall. congruence.
Qed.

End TrimFacts.

(** X14.  Without a window [initContextMenu] builds no menu and registers
    no listener.  With one, the listener it registers pops up at most one
    menu per event, chosen by two facts only: whether the target is
    editable and whether the selection holds a character that is not white
    space.  Editable with such a selection: the input-selection menu;
    editable without: the input menu; not editable with: the selection menu;
    otherwise nothing.  A selection of white space alone counts as none. *)
Theorem context_menu_choice :
  forall (env : BaseMenu.Environment) (isWhiteSpace : CodeUnit -> bool)
         (this : BaseMenu.Fields),
    match BaseMenu.windowMain_win this with
    | None => BaseMenu.initContextMenu env isWhiteSpace this = ([], None)
    | Some _ =>
        exists listener,
          snd (BaseMenu.initContextMenu env isWhiteSpace this) = Some listener /\
          forall props : BaseMenu.ContextMenuParams,
            let has_text :=
              existsb (fun c => negb (isWhiteSpace c)) (BaseMenu.selectionText props) in
            listener props =
              match BaseMenu.isEditable props, has_text with
              | true, true => [BaseMenu.MenuPopup (BaseMenu.inputSelectionMenu env)]
              | true, false => [BaseMenu.MenuPopup (BaseMenu.inputMenu env)]
              | false, true => [BaseMenu.MenuPopup (BaseMenu.selectionMenu env)]
              | false, false => []
              end
    end.
Proof.
  intros env ws this. unfold BaseMenu.initContextMenu.
  destruct (BaseMenu.windowMain_win this); [|reflexivity].
  eexists. split; [reflexivity|]. intros props. cbv zeta.
  unfold BaseMenu.on_context_menu. rewrite selected_has_text.
  destruct (BaseMenu.isEditable props), (existsb _ _); reflexivity.
Qed.

(** X15.  Whatever menu the listener pops up matches the event: it offers
    cut exactly when the target is editable and text is selected, copy
    exactly when text is selected, paste exactly when the target is
    editable, undo and redo exactly when the target is editable and nothing
    is selected, and select-all always. *)
Theorem context_menu_offers :
  forall (env : BaseMenu.Environment) (isWhiteSpace : CodeUnit -> bool)
         (props : BaseMenu.ContextMenuParams),
    let editable := BaseMenu.isEditable props in
    let has_text :=
      existsb (fun c => negb (isWhiteSpace c)) (BaseMenu.selectionText props) in
    Forall (fun action =>
              match action with
              | BaseMenu.MenuPopup menu =>
                  BaseMenu.offers menu "cut" = editable && has_text /\
                  BaseMenu.offers menu "copy" = has_text /\
                  BaseMenu.offers menu "paste" = editable /\
                  BaseMenu.offers menu "undo" = editable && negb has_text /\
                  BaseMenu.offers menu "redo" = editable && negb has_text /\
                  BaseMenu.offers menu "selectall" = true
              | _ => False
              end)
           (BaseMenu.on_context_menu env isWhiteSpace props).
Proof.
  intros env ws props. cbv zeta.
  unfold BaseMenu.on_context_menu. rewrite selected_has_text.
  destruct (BaseMenu.isEditable props), (existsb _ _); cbn [andb];
    repeat constructor.
Qed.

(** X16.  The log-out item's click shows one confirmation dialog and calls
    [onLogOut] exactly when the dialog returns 0, the index of the button
    labelled with the log-out text.  The dialog's cancel id is the index of
    the cancel button and is not 0, so dismissing the dialog never logs
    out. *)
Theorem logOut_needs_confirmation :
  forall env : BaseMenu.Environment,
    let options := BaseMenu.logOut_options env in
    let answer := BaseMenu.showMessageBox env options in
    (exists rest,
       BaseMenu.logOut_click env = BaseMenu.DialogShowMessageBox options :: rest /\
       (forall o, ~ In (BaseMenu.DialogShowMessageBox o) rest) /\
       (In BaseMenu.OnLogOut rest <-> answer = 0%Z)) /\
    nth_error (BaseMenu.mb_buttons options) 0 = Some (BaseMenu.t env "logOut") /\
    BaseMenu.mb_defaultId options = Some 0%Z /\
    BaseMenu.mb_cancelId options = Some 1%Z /\
    nth_error (BaseMenu.mb_buttons options) 1 = Some (BaseMenu.t env "cancel").
Proof.
  intros env options answer. split; [|repeat split].
  unfold BaseMenu.logOut_click. fold options. fold answer.
  eexists. split; [reflexivity|].
  destruct (Z.eqb_spec answer 0) as [H0|H0]; cbn; split.
  - intros o [H|[]]. discriminate.
  - tauto.
  - intros o [].
  - tauto.
Qed.

(** X17.  The about item's click shows one dialog and writes to the
    clipboard exactly when the dialog returns 1, the index of the button
    labelled with the copy text; what it writes is the detail text the
    dialog showed. *)
Theorem about_copies_what_it_shows :
  forall env : BaseMenu.Environment,
    let options := BaseMenu.about_options env in
    let answer := BaseMenu.showMessageBox env options in
    (exists rest,
       BaseMenu.about_click env = BaseMenu.DialogShowMessageBox options :: rest /\
       forall text,
         In (BaseMenu.ClipboardWriteText text) rest <->
         (answer = 1%Z /\ text = BaseMenu.mb_detail options)) /\
    nth_error (BaseMenu.mb_buttons options) 1 = Some (BaseMenu.t env "copy").
Proof.
  intros env options answer. split; [|reflexivity].
  unfold BaseMenu.about_click. fold options. fold answer.
  eexists. split; [reflexivity|]. intros text.
  destruct (Z.eqb_spec answer 1) as [H1|H1]; cbn; split.
  - intros [H|[]]. injection H as <-. now split.
  - intros [_ ->]. now left.
  - intros [].
  - intros [H _]. contradiction.
Qed.

(** X18.  On a new object [initProperties] sets the five common menu
    properties on every platform and the two macOS properties exactly when
    the platform is 'darwin'; it leaves the window alone.  Running it a
    second time changes nothing. *)
Theorem initProperties_by_platform :
  forall (env : BaseMenu.Environment) (win : option N) (this : BaseMenu.Fields),
    let initialized := BaseMenu.initProperties env (BaseMenu.fresh win) in
    (BaseMenu.logOutMenuItemOptions initialized <> None /\
     BaseMenu.aboutMenuItemOptions initialized <> None /\
     BaseMenu.editMenuItemOptions initialized <> None /\
     BaseMenu.viewSubMenuItemOptions initialized <> None /\
     BaseMenu.windowMenuItemOptions initialized <> None) /\
    (BaseMenu.macAppMenuItemOptions initialized <> None <->
       BaseMenu.process_platform env = "darwin") /\
    (BaseMenu.macWindowSubmenuOptions initialized <> None <->
       BaseMenu.process_platform env = "darwin") /\
    BaseMenu.windowMain_win initialized = win /\
    BaseMenu.initProperties env (BaseMenu.initProperties env this) =
      BaseMenu.initProperties env this.
Proof.
  intros env win this initialized. subst initialized.
  unfold BaseMenu.initProperties.
  destruct (String.eqb_spec (BaseMenu.process_platform env) "darwin") as [Hd|Hd];
    cbn; repeat split; try discriminate; try tauto; try congruence.
Qed.

Example blank_selection_pops_nothing :
  BaseMenu.on_context_menu (BaseMenu.sample "linux" 0) BaseMenu.es_whitespace
    {| BaseMenu.isEditable := false; BaseMenu.selectionText := [32; 9; 160]%N |} = [].
Proof. reflexivity. Qed.

Example selection_in_page_pops_copy_menu :
  BaseMenu.on_context_menu (BaseMenu.sample "linux" 0) BaseMenu.es_whitespace
    {| BaseMenu.isEditable := false; BaseMenu.selectionText := [32; 104; 105]%N |} =
  [BaseMenu.MenuPopup [BaseMenu.item "copy" "copy"; BaseMenu.separator;
                       BaseMenu.item "selectAll" "selectall"]].
Proof. reflexivity. Qed.

Example dismissed_dialog_keeps_session :
  BaseMenu.logOut_click (BaseMenu.sample "darwin" 1) =
    [BaseMenu.DialogShowMessageBox (BaseMenu.logOut_options (BaseMenu.sample "darwin" 1))].
Proof. reflexivity. Qed.

(* ===================================================================== *)
(** ** Binary arguments and the UTF-8 encoder *)
(* ===================================================================== *)

Ltac solve_encoded :=
  cbn [In]; split;
  [ intros H; repeat (destruct H as [H|H]; try discriminate); try contradiction;
    try (injection H as <-); auto
  | intros H; repeat (destruct H as [H|H]); try discriminate;
    try (injection H as <-); auto 10 ].

(** X19.  Buffers never go through forge's UTF-8 encoder.  In a run of
    [hash] on Edge the encoder is given the value exactly when the value is
    a text; in a run of [pbkdf2] on Edge it is given nothing but the
    password and the salt, and is given the password whenever that is a
    text.  [hmac] and [aesDecryptSmall], whose arguments are all buffers,
    never call it, and off Edge no method does. *)
Theorem only_text_is_utf8_encoded :
  forall (forge : Forge.Lib) (fromUtf8ToArray : JsString -> ArrayBuffer)
         (this : WebCryptoFunctionService)
         (password salt value : StringOrBuffer) (data iv key : ArrayBuffer)
         (algorithm : AlgorithmId) (iterations : Z) (s : JsString),
    let edge := with_isEdge true this in
    let native := with_isEdge false this in
    let encoded (m : Eff (Settled ArrayBuffer)) := In (ForgeEncodeUtf8 s) (calls_of m) in
    (encoded (hash forge fromUtf8ToArray edge value algorithm) <-> value = Str s) /\
    (encoded (pbkdf2 forge fromUtf8ToArray edge password salt algorithm iterations) ->
       (password = Str s \/ salt = Str s)) /\
    (password = Str s ->
       encoded (pbkdf2 forge fromUtf8ToArray edge password salt algorithm iterations)) /\
    ~ encoded (hmac forge this data key algorithm) /\
    ~ encoded (aesDecryptSmall forge this data iv key) /\
    ~ encoded (hash forge fromUtf8ToArray native value algorithm) /\
    ~ encoded (pbkdf2 forge fromUtf8ToArray native password salt algorithm iterations).
Proof.
  intros forge utf8 this password salt value data iv key algorithm iterations s.
  cbv zeta.
  split; [|split; [|split; [|split; [|split; [|split]]]]].
  - destruct value; run_service; solve_encoded.
  - destruct password, salt; run_service; cbn [In]; intros H;
      repeat (destruct H as [H|H]; try discriminate); try contradiction;
      injection H as <-; auto.
  - intros ->. destruct salt; run_service; cbn [In]; auto.
  - run_service; cbn [In]; intros H;
      repeat (destruct H as [H|H]; try discriminate); exact H.
  - run_service; cbn [In]; intros H;
      repeat (destruct H as [H|H]; try discriminate); exact H.
  - destruct value; run_service; cbn [In]; intros H;
      repeat (destruct H as [H|H]; try discriminate); exact H.
  - destruct password, salt; run_service; cbn [In]; intros H;
      repeat (destruct H as [H|H]; try discriminate); exact H.
Qed.
